(** * Course lifecycle manager: validation and soft delete

    A shallow embedding of the LoopBack controller
    [aci-learning-exercise/src/controllers/courses.controller.ts] and of the
    entity it manages, [aci-learning-exercise/src/models/course.model.ts].

    The controller is a handful of asynchronous handlers that validate a
    request, read the wall clock, and call a CRUD repository.  Every handler
    awaits each call before the next one, so a handler is a sequential
    computation over the world it touches: the repository's table, the HTTP
    response headers and the clock.  Handlers are written below in a small
    state-and-exception monad over that world; [console.log] calls, which
    affect nothing the handlers read, are left out. *)

From Stdlib Require Import ZArith String List Lia.
From stdpp Require Import base option list gmap strings sorting pretty.

Local Open Scope Z_scope.

(** ** JavaScript property values

    A property of a request body or of an entity is absent ([undefined]),
    [null], or holds a value.  The controller tells the three apart with the
    strict equality [===], so the embedding keeps them apart as well. *)

Inductive js (A : Type) : Type :=
  | undefined : js A
  | null : js A
  | value : A -> js A.
Arguments undefined {A}.
Arguments null {A}.
Arguments value {A} _.

#[global] Instance js_eq_dec {A} `{EqDecision A} : EqDecision (js A).
Proof. solve_decision. Defined.

(** [v === null] *)
Definition is_null {A} (v : js A) : bool :=
  match v with null => true | _ => false end.

(** [v === s] for a string literal [s] *)
Definition is_string (s : string) (v : js string) : bool :=
  match v with value t => String.eqb t s | _ => false end.

(** An instant, in milliseconds since the epoch.  [new Date().toISOString()]
    renders the instant read from the clock as text; the text is determined by
    the instant and the store keeps the column as a date, so the instant
    itself stands for it. *)
Definition Time : Type := Z.

(** ** The Course entity (course.model.ts) *)

Module Course.

Record t : Type := mk {
  id : js Z;              (* id?: number, generated *)
  name : js string;       (* required *)
  status : js string;     (* required *)
  createdAt : js Time;    (* default: () => new Date() *)
  updatedAt : js Time;    (* default: () => new Date() *)
  deletedAt : js Time     (* deletedAt?: string, no default *)
}.

#[global] Instance eq_dec : EqDecision t.
Proof. solve_decision. Defined.

(** [new Course({...c, updatedAt: v})] and the like: the spread copies every
    property and the named one is overwritten. *)
Definition with_id (v : js Z) (c : t) : t :=
  mk v (name c) (status c) (createdAt c) (updatedAt c) (deletedAt c).
Definition with_updatedAt (v : js Time) (c : t) : t :=
  mk (id c) (name c) (status c) (createdAt c) v (deletedAt c).
Definition with_deletedAt (v : js Time) (c : t) : t :=
  mk (id c) (name c) (status c) (createdAt c) (updatedAt c) v.

End Course.

(** ** Query filters ([Filter<Course>] of @loopback/repository)

    The type is the framework's.  A filter arrives as a decoded object, so
    its pagination keys and the keys of its where clause hold whatever the
    request put there.  [include] is left out: [CourseRelations] declares no
    relation to include. *)

Inductive Property : Type :=
  | Pid | Pname | Pstatus | PcreatedAt | PupdatedAt | PdeletedAt.

#[global] Instance Property_eq_dec : EqDecision Property.
Proof. solve_decision. Defined.

(** A literal inside a where clause, and the value of a property read back as
    such a literal. *)
Inductive Json : Type :=
  | JNull
  | JNum (z : Z)
  | JStr (s : string).

#[global] Instance Json_eq_dec : EqDecision Json.
Proof. solve_decision. Defined.

Inductive Condition : Type :=
  | Eq (v : Json).        (* {eq: v} *)

#[global] Instance Condition_eq_dec : EqDecision Condition.
Proof. solve_decision. Defined.

(** What a key of a filter or of a where clause holds in a request: a
    literal, or an operator object such as [{eq: null}]. *)
Inductive Value : Type :=
  | Literal (v : Json)
  | Operator (c : Condition).

#[global] Instance Value_eq_dec : EqDecision Value.
Proof. solve_decision. Defined.

(** [Where<Course>] as it arrives: an object, given by its keys and their
    values, each key once.  The type asks for keys that are properties of
    the entity, but nothing checks it: a request can put any key there. *)
Definition Where : Type := list (string * Value).

(** [o[k]] *)
Fixpoint get (k : string) (o : list (string * Value)) : option Value :=
  match o with
  | [] => None
  | (k', v) :: o' => if String.eqb k' k then Some v else get k o'
  end.

(** [Fields<Course>] in its object form, [{id: true, name: true}]. *)
Definition Fields : Type := list (Property * bool).

Inductive Direction : Type := ASC | DESC.

#[global] Instance Direction_eq_dec : EqDecision Direction.
Proof. solve_decision. Defined.

(** One entry of [order], such as ['createdAt ASC']. *)
Definition Order : Type := list (Property * Direction).

Record Filter : Type := mkFilter {
  where_ : option Where;
  fields : option Fields;
  order : option Order;
  limit : option Value;
  skip : option Value;
  offset : option Value;
  (* keys that are not the filter's own, put at its top level by a spread *)
  rest : Where
}.

#[global] Instance Filter_eq_dec : EqDecision Filter.
Proof. solve_decision. Defined.

(** ** Errors ([HttpErrors] of @loopback/rest, and those of the store)

    The message of a [BadRequest] is kept as the complaint it makes; the
    identifiers interpolated into the other messages are not. *)

Inductive Complaint : Type :=
  | NameRequired                        (* 'Course name is required.' *)
  | InvalidStatus (status : js string)  (* '${status} is not a valid status' *)
  | IdCannotBeUpdated.                  (* the store's, on a replace *)

Inductive HttpError : Type :=
  | BadRequest (why : Complaint)
  | NotFound
  | Gone
  | UnprocessableEntity.                (* the store's validation error *)

Definition statusCode (e : HttpError) : Z :=
  match e with
  | BadRequest _ => 400
  | NotFound => 404
  | Gone => 410
  | UnprocessableEntity => 422
  end.

(** ** The world of a handler *)

(** The calls a handler makes on the repository, in the order it makes them.
    The journal is a history variable: no handler reads it. *)
Inductive Call : Type :=
  | CallCreate (course : Course.t)
  | CallFind (filter : Filter)
  | CallFindById (id : Z) (filter : option Filter)
  | CallReplaceById (id : Z) (course : Course.t).

Record World : Type := mkWorld {
  rows : gmap Z Course.t;           (* the table, by primary key *)
  nextId : Z;                       (* the next generated id *)
  journal : list Call;              (* repository calls so far, latest first *)
  headers : list (string * string); (* this.res, latest first *)
  clock : nat -> Time;              (* what the n-th reading of the clock gives *)
  reads : nat                       (* clock readings so far *)
}.

Definition with_rows (m : gmap Z Course.t) (w : World) : World :=
  mkWorld m (nextId w) (journal w) (headers w) (clock w) (reads w).
Definition with_nextId (n : Z) (w : World) : World :=
  mkWorld (rows w) n (journal w) (headers w) (clock w) (reads w).
Definition with_journal (j : list Call) (w : World) : World :=
  mkWorld (rows w) (nextId w) j (headers w) (clock w) (reads w).
Definition with_headers (h : list (string * string)) (w : World) : World :=
  mkWorld (rows w) (nextId w) (journal w) h (clock w) (reads w).
Definition with_reads (n : nat) (w : World) : World :=
  mkWorld (rows w) (nextId w) (journal w) (headers w) (clock w) n.

(** ** The handler monad: state over [World], exceptions in [HttpError].
    A [throw] keeps the effects made before it, as a rejected promise does. *)

Inductive Outcome (A : Type) : Type :=
  | Return (a : A)
  | Throw (e : HttpError).
Arguments Return {A} _.
Arguments Throw {A} _.

Definition M (A : Type) : Type := World -> Outcome A * World.

Definition ret {A} (a : A) : M A := fun w => (Return a, w).

Definition throw {A} (e : HttpError) : M A := fun w => (Throw e, w).

Definition bind {A B} (m : M A) (k : A -> M B) : M B :=
  fun w =>
    match m w with
    | (Return a, w') => k a w'
    | (Throw e, w') => (Throw e, w')
    end.

Notation "x <- m ;; k" := (bind m (fun x => k))
  (at level 100, m at next level, right associativity).
Notation "m ;;; k" := (bind m (fun _ => k))
  (at level 100, right associativity).

Definition modify (f : World -> World) : M unit := fun w => (Return tt, f w).

Definition gets {A} (f : World -> A) : M A := fun w => (Return (f w), w).

(** [new Date()]: one more reading of the clock. *)
Definition new_Date : M Time :=
  fun w => (Return (clock w (reads w)), with_reads (S (reads w)) w).

(** [this.res.setHeader(k, v)] *)
Definition setHeader (k v : string) : M unit :=
  modify (fun w => with_headers ((k, v) :: headers w) w).

Definition record (c : Call) : M unit :=
  modify (fun w => with_journal (c :: journal w) w).

(** ** The repository

    [CourseRepository] is LoopBack's default CRUD repository over the
    [Course] table; the controller uses its [create], [find], [findById] and
    [replaceById]. *)

Module Repository.

(** Modelled from the spec: what the persistence store makes of a record on
    its way in.  The timestamps are assigned by the store when the record
    brings none ([default: () => new Date()] in course.model.ts), and the
    nullable [deletedAt] holds null when no value is given. *)
Definition or_default {A} (d : A) (v : js A) : js A :=
  match v with undefined => value d | _ => v end.

Definition or_null {A} (v : js A) : js A :=
  match v with undefined => null | _ => v end.

Definition persist (now : Time) (c : Course.t) : Course.t :=
  Course.mk (Course.id c) (Course.name c) (Course.status c)
            (or_default now (Course.createdAt c))
            (or_default now (Course.updatedAt c))
            (or_null (Course.deletedAt c)).

(** Modelled from the spec: the entity a write hands back to its caller.
    The defaults of course.model.ts are applied; a property that the body
    did not carry and that has no default stays absent, though the row holds
    null for it. *)
Definition instantiate (now : Time) (c : Course.t) : Course.t :=
  Course.mk (Course.id c) (Course.name c) (Course.status c)
            (or_default now (Course.createdAt c))
            (or_default now (Course.updatedAt c))
            (Course.deletedAt c).

(** Modelled from the spec: what the persistence store refuses to write.
    [name] and [status] are [required: true] in course.model.ts (spec: name
    is never empty or absent on a stored record), so a record without one of
    them is refused as unprocessable; the id is [generated: true] (spec:
    server-generated, never changes once assigned), so a new record may not
    bring one and a replacement may not bring another than the one it is
    stored under.  An id that is absent, null or 0 counts as not brought. *)
Definition blank (v : js string) : bool :=
  match v with
  | value s => String.eqb s ""
  | _ => true
  end.

Definition lacks_required (c : Course.t) : bool :=
  blank (Course.name c) || blank (Course.status c).

Definition brings_id (c : Course.t) : bool :=
  match Course.id c with
  | value _ => true
  | _ => false
  end.

Definition changes_id (id : Z) (c : Course.t) : bool :=
  match Course.id c with
  | value z => negb (z =? 0) && negb (z =? id)
  | _ => false
  end.

Definition refuses_new (c : Course.t) : option HttpError :=
  if brings_id c || lacks_required c then Some UnprocessableEntity
  else None.

Definition refuses_replacement (id : Z) (c : Course.t) : option HttpError :=
  if changes_id id c then Some (BadRequest IdCannotBeUpdated)
  else if lacks_required c then Some UnprocessableEntity
  else None.

(** Modelled from the spec: the equality filter of the persistence store.
    A property of a record is read as a literal, [None] when absent. *)
Definition literal {A} (inj : A -> Json) (v : js A) : option Json :=
  match v with
  | undefined => None
  | null => Some JNull
  | value a => Some (inj a)
  end.

Definition read (p : Property) (c : Course.t) : option Json :=
  match p with
  | Pid => literal JNum (Course.id c)
  | Pname => literal JStr (Course.name c)
  | Pstatus => literal JStr (Course.status c)
  | PcreatedAt => literal JNum (Course.createdAt c)
  | PupdatedAt => literal JNum (Course.updatedAt c)
  | PdeletedAt => literal JNum (Course.deletedAt c)
  end.

Definition property_named (k : string) : option Property :=
  if String.eqb k "id" then Some Pid
  else if String.eqb k "name" then Some Pname
  else if String.eqb k "status" then Some Pstatus
  else if String.eqb k "createdAt" then Some PcreatedAt
  else if String.eqb k "updatedAt" then Some PupdatedAt
  else if String.eqb k "deletedAt" then Some PdeletedAt
  else None.

(** [{deletedAt: {eq: null}}] and its shorthand [{deletedAt: null}] ask for
    the same literal. *)
Definition asked (v : Value) : Json :=
  match v with
  | Literal x => x
  | Operator (Eq x) => x
  end.

(** A where clause holds of a record when each of its equalities does; a key
    that names no property of the entity is passed over. *)
Definition matches (w : Where) (c : Course.t) : bool :=
  forallb (fun '(k, v) =>
             match property_named k with
             | Some p => bool_decide (read p c = Some (asked v))
             | None => true
             end) w.

(** Modelled from the spec: the ascending sort of the persistence store.
    Numbers (and so instants) go by value, text by [String.leb], numbers
    before text, and null or absent values last. *)
Definition json_leb (a b : option Json) : bool :=
  match a, b with
  | Some (JNum x), Some (JNum y) => x <=? y
  | Some (JStr x), Some (JStr y) => String.leb x y
  | Some (JNum _), _ => true
  | _, Some (JNum _) => false
  | Some (JStr _), _ => true
  | _, Some (JStr _) => false
  | _, _ => true
  end.

(** The first entry of [order] decides; the controller never sends more. *)
Definition ordered_by (o : Order) (a b : Course.t) : bool :=
  match o with
  | [] => true
  | (p, ASC) :: _ => json_leb (read p a) (read p b)
  | (p, DESC) :: _ => json_leb (read p b) (read p a)
  end.

Definition precedes (o : Order) : relation Course.t :=
  fun a b => ordered_by o a b = true.

#[global] Instance precedes_dec o a b : Decision (precedes o a b).
Proof. unfold precedes. apply _. Defined.

(** Modelled from the spec: the field projection of the persistence
    store.  [{id: true, name: true}] keeps the listed properties; a [fields]
    object with no [true] entry drops the ones it marks [false]. *)
Definition selected (fs : Fields) (p : Property) : bool :=
  if existsb snd fs
  then existsb (fun '(q, b) => b && bool_decide (q = p)) fs
  else negb (existsb (fun '(q, _) => bool_decide (q = p)) fs).

Definition keep {A} (fs : Fields) (p : Property) (v : js A) : js A :=
  if selected fs p then v else undefined.

Definition project (fs : option Fields) (c : Course.t) : Course.t :=
  match fs with
  | None => c
  | Some fs =>
      Course.mk (keep fs Pid (Course.id c))
                (keep fs Pname (Course.name c))
                (keep fs Pstatus (Course.status c))
                (keep fs PcreatedAt (Course.createdAt c))
                (keep fs PupdatedAt (Course.updatedAt c))
                (keep fs PdeletedAt (Course.deletedAt c))
    end.

(** Modelled from the spec: pagination by the persistence store.  The spec
    gives the store none; the keys are those of the framework's filter type,
    read as the store reads them, [skip || offset || 0] and [limit || all]:
    a key counts when it holds a positive number, and a key that is absent,
    null or zero (or holds no number) is as good as not given.  What is
    proved of [find] below rests on two facts only: a page is a part of the
    selection, in its order, and it is the whole selection when no key is
    given. *)
Definition count (v : option Value) : option nat :=
  match v with
  | Some (Literal (JNum z)) => if 0 <? z then Some (Z.to_nat z) else None
  | _ => None
  end.

Definition start (f : Filter) : nat :=
  match count (skip f), count (offset f) with
  | Some n, _ => n
  | None, Some n => n
  | None, None => 0%nat
  end.

Definition page {A} (f : Filter) (l : list A) : list A :=
  match count (limit f) with
  | Some n => take n (drop (start f) l)
  | None => drop (start f) l
  end.

Definition table (w : World) : list Course.t :=
  (map_to_list (rows w)).*2.

(** Modelled from the spec: the records a filter selects from the
    persistence store, in the order it asks for, before pagination and
    projection. *)
Definition selection (f : Filter) (w : World) : list Course.t :=
  merge_sort (precedes (default [] (order f)))
             (List.filter (matches (default [] (where_ f))) (table w)).

(** Modelled from the spec: the persistence store behind the controller
    ([repositories/course.repository.ts] and the data source it binds),
    whose interface the spec gives as create(record) -> record with id and
    timestamps assigned by the store.  The row is written with [deletedAt]
    null when the body has none; the entity handed back is the body with
    the id and the timestamps filled in. *)
Definition create (course : Course.t) : M Course.t :=
  record (CallCreate course) ;;;
  match refuses_new course with
  | Some e => throw e
  | None =>
      now <- new_Date ;;
      key <- gets nextId ;;
      let stored := Course.with_id (value key) (persist now course) in
      modify (fun w => with_nextId (key + 1) (with_rows (<[key := stored]> (rows w)) w)) ;;;
      ret (Course.with_id (value key) (instantiate now course))
  end.

(** Modelled from the spec: find(filter) -> [record] of the persistence
    store, which supports an equality filter on deletedAt, an ascending sort
    on createdAt and field projection; [limit], [skip] and [offset] are the
    pagination keys of the framework's filter type. *)
Definition find (filter : Filter) : M (list Course.t) :=
  record (CallFind filter) ;;;
  found <- gets (selection filter) ;;
  ret (project (fields filter) <$> page filter found).

(** Modelled from the spec: findById(id) -> record | NotFound of the
    persistence store; the optional filter can only project fields. *)
Definition findById (id : Z) (filter : option Filter) : M Course.t :=
  record (CallFindById id filter) ;;;
  row <- gets (fun w => rows w !! id) ;;
  match row with
  | None => throw NotFound
  | Some c => ret (project (filter ≫= fields) c)
  end.

(** Modelled from the spec: replaceById(id, record) -> success | NotFound
    of the persistence store; the replacement is persisted under [id].  The
    store refuses what it may not write before it looks for the row. *)
Definition replaceById (id : Z) (course : Course.t) : M unit :=
  record (CallReplaceById id course) ;;;
  match refuses_replacement id course with
  | Some e => throw e
  | None =>
      row <- gets (fun w => rows w !! id) ;;
      match row with
      | None => throw NotFound
      | Some _ =>
          now <- new_Date ;;
          let stored := Course.with_id (value id) (persist now course) in
          modify (fun w => with_rows (<[id := stored]> (rows w)) w)
      end
  end.

End Repository.

(** ** The controller (courses.controller.ts) *)

(** [private validateStatus(status)]: a [switch] on three string literals. *)
Definition validateStatus (status : js string) : bool :=
  if is_string "scheduled" status then true
  else if is_string "in_production" status then true
  else if is_string "available" status then true
  else false.

(** [private isDeleted(course)]: [!(course.deletedAt === null)]. *)
Definition isDeleted (course : Course.t) : bool :=
  negb (is_null (Course.deletedAt course)).

(** [`${id}`] for an id that may be absent. *)
Definition show_id (v : js Z) : string :=
  match v with
  | value z => pretty z
  | null => "null"
  | undefined => "undefined"
  end.

(** [POST /courses] *)
Definition create (course : Course.t) : M Course.t :=
  if is_null (Course.name course) || is_string "" (Course.name course)
  then throw (BadRequest NameRequired)
  else if negb (validateStatus (Course.status course))
  then throw (BadRequest (InvalidStatus (Course.status course)))
  else
    newCourse <- Repository.create course ;;
    setHeader "Location" ("/courses/" +:+ show_id (Course.id newCourse)) ;;;
    ret newCourse.

(** The value of key [k] in [{...filter, ...filter?.where}]: the one the
    where clause has under [k] if it has that key, else the filter's own. *)
Definition spread (k : string) (own : Filter -> option Value)
    (filter : option Filter) : option Value :=
  match get k (default [] (filter ≫= where_)) with
  | Some v => Some v
  | None => filter ≫= own
  end.

(** [GET /courses].  The object literal spreads the caller's filter, then the
    keys of the caller's where clause over it, then sets [where], [order] and
    [fields].  The three are overwritten whatever the caller sent; [limit],
    [skip] and [offset] reach the store as the caller's where clause has
    them, or else as the caller's filter has them. *)
Definition find (filter : option Filter) : M (list Course.t) :=
  let filter := {|
    where_ := Some [("deletedAt", Operator (Eq JNull))];
    order := Some [(PcreatedAt, ASC)];
    fields := Some [(Pid, true); (Pname, true)];
    limit := spread "limit" limit filter;
    skip := spread "skip" skip filter;
    offset := spread "offset" offset filter;
    rest := default [] (filter ≫= where_) ++ from_option rest [] filter
  |} in
  Repository.find filter.

(** [GET /courses/{id}] *)
Definition findById (id : Z) (filter : option Filter) : M Course.t :=
  course <- Repository.findById id filter ;;
  if isDeleted course then throw Gone
  else ret course.

(** [PUT /courses/{id}] *)
Definition replaceById (id : Z) (course : Course.t) : M unit :=
  now <- new_Date ;;
  let course := Course.with_updatedAt (value now) course in
  if is_null (Course.name course) || is_string "" (Course.name course)
  then throw (BadRequest NameRequired)
  else if negb (validateStatus (Course.status course))
  then throw (BadRequest (InvalidStatus (Course.status course)))
  else Repository.replaceById id course.

(** [DELETE /courses/{id}].  The handler's [course == null] test guards a
    value that [findById] never produces (it returns an entity or throws), so
    the [NotFound] it would throw comes from [findById] instead. *)
Definition deleteById (id : Z) : M unit :=
  course <- findById id None ;;
  if isDeleted course then throw Gone
  else
    now <- new_Date ;;
    let course := Course.with_deletedAt (value now) course in
    replaceById id course.

(** ** Requests: the five routes of the controller *)

Inductive Request : Type :=
  | POST_courses (course : Course.t)
  | GET_courses (filter : option Filter)
  | GET_courses_id (id : Z) (filter : option Filter)
  | PUT_courses_id (id : Z) (course : Course.t)
  | DELETE_courses_id (id : Z).

Inductive Reply : Type :=
  | Body (course : Course.t)
  | Listing (courses : list Course.t)
  | NoContent.

Definition handle (r : Request) : M Reply :=
  match r with
  | POST_courses course => c <- create course ;; ret (Body c)
  | GET_courses filter => l <- find filter ;; ret (Listing l)
  | GET_courses_id id filter => c <- findById id filter ;; ret (Body c)
  | PUT_courses_id id course => replaceById id course ;;; ret NoContent
  | DELETE_courses_id id => deleteById id ;;; ret NoContent
  end.

(** The world after a handler has run, and what it answered. *)
Definition after {A} (m : M A) (w : World) : World := snd (m w).
Definition answer {A} (m : M A) (w : World) : Outcome A := fst (m w).

(** A fresh deployment: an empty table whose ids start at 1. *)
Definition initial (clock : nat -> Time) : World :=
  mkWorld ∅ 1 [] [] clock 0.

(** Worlds a deployment can be in: the initial one, and any reached from it
    by serving a request. *)
Inductive reachable : World -> Prop :=
  | reachable_initial clock : reachable (initial clock)
  | reachable_step w r : reachable w -> reachable (after (handle r) w).

(** Generated ids are fresh: every key of the table is below [nextId]. *)
Definition fresh_ids (w : World) : Prop :=
  forall i, is_Some (rows w !! i) -> i < nextId w.

(** ** The vocabulary of the specification *)

(** The three values the spec enumerates for [status]. *)
Definition statuses : list (js string) :=
  [value "scheduled"; value "in_production"; value "available"].

(** What the name check of [create] and [replaceById] tests. *)
Definition name_missing (course : Course.t) : bool :=
  is_null (Course.name course) || is_string "" (Course.name course).

(** The three keys [find] always sets on the filter it sends. *)
Definition active_only : Where := [("deletedAt", Operator (Eq JNull))].
Definition by_creation : Order := [(PcreatedAt, ASC)].
Definition id_and_name : Fields := [(Pid, true); (Pname, true)].

(** What [GET /courses] shows of a record: its [id] and [name]. *)
Definition summary (c : Course.t) : Course.t :=
  Course.mk (Course.id c) (Course.name c)
            undefined undefined undefined undefined.

(** Oldest first: by creation time, records without one coming last. *)
Definition oldest_first (a b : Course.t) : Prop :=
  match Course.createdAt a, Course.createdAt b with
  | value x, value y => x <= y
  | value _, _ => True
  | _, value _ => False
  | _, _ => True
  end.

(** A caller's filter that asks for no pagination: neither it nor its
    where clause has a [limit], [skip] or [offset] key. *)
Definition unpaged (filter : option Filter) : Prop :=
  spread "limit" limit filter = None /\
  spread "skip" skip filter = None /\
  spread "offset" offset filter = None.

(** ** Sample data *)

(** A clock that starts at instant 1000 and advances by one per reading. *)
Definition ticking (n : nat) : Time := 1000 + Z.of_nat n.

(** [{name: 'Intro to Go', status: 'scheduled'}] *)
Definition intro_to_go : Course.t :=
  Course.mk undefined (value "Intro to Go") (value "scheduled")
            undefined undefined undefined.

(** [{name: '', status: 'scheduled'}] *)
Definition unnamed : Course.t :=
  Course.mk undefined (value "") (value "scheduled")
            undefined undefined undefined.

(** [{name: 'X', status: 'bogus'}] *)
Definition bogus : Course.t :=
  Course.mk undefined (value "X") (value "bogus")
            undefined undefined undefined.

(** [{status: 'available'}]: a body without a name. *)
Definition nameless : Course.t :=
  Course.mk undefined undefined (value "available")
            undefined undefined undefined.

(** [{status: 'bogus'}]: a body without a name and with a bad status. *)
Definition nameless_bogus : Course.t :=
  Course.mk undefined undefined (value "bogus")
            undefined undefined undefined.

(** After [POST /courses] of [intro_to_go] on a fresh deployment. *)
Definition one_course : World := after (create intro_to_go) (initial ticking).

(** ... and after [DELETE /courses/1]. *)
Definition one_deleted : World := after (deleteById 1) one_course.

(** A table holding a record that has no [deletedAt] property at all. *)
Definition legacy_row : Course.t :=
  Course.mk (value 7) (value "Legacy") (value "available")
            (value 10) (value 10) undefined.

Definition legacy : World :=
  mkWorld {[ 7 := legacy_row ]} 8 [] [] ticking 0.

(** The record [one_course] holds under id 1. *)
Definition intro_stored : Course.t :=
  Course.mk (value 1) (value "Intro to Go") (value "scheduled")
            (value 1000) (value 1000) null.

(** [{name: 'Renamed', status: 'available'}] *)
Definition renamed : Course.t :=
  Course.mk undefined (value "Renamed") (value "available")
            undefined undefined undefined.

(** [{name: 'Old', status: 'available', deletedAt: <instant 5>}]: a body for
    [POST /courses] that carries a deletion time. *)
Definition born_deleted : Course.t :=
  Course.mk undefined (value "Old") (value "available")
            undefined undefined (value 5).

(** [?filter={"limit": 1}] *)
Definition first_only : Filter :=
  mkFilter None None None (Some (Literal (JNum 1))) None None [].

(** [?filter={"where": {"limit": 1}}]: the limit travels in the where
    clause. *)
Definition smuggled : Filter :=
  mkFilter (Some [("limit", Literal (JNum 1))]) None None None None None [].

(** What [POST /courses] of [intro_to_go] answers on a fresh deployment. *)
Definition intro_created : Course.t :=
  Course.mk (value 1) (value "Intro to Go") (value "scheduled")
            (value 1000) (value 1000) undefined.

(** [{id: 9, name: 'Renamed', status: 'available'}]: a body that carries an
    id. *)
Definition renumbered : Course.t :=
  Course.mk (value 9) (value "Renamed") (value "available")
            undefined undefined undefined.

(** [one_course] after a second [POST /courses]. *)
Definition two_courses : World := after (create renamed) one_course.

(** ** Vocabulary for the handlers taken together *)

(** Two caller's filters whose pagination keys reach the store alike. *)
Definition same_page (f g : option Filter) : Prop :=
  spread "limit" limit f = spread "limit" limit g /\
  spread "skip" skip f = spread "skip" skip g /\
  spread "offset" offset f = spread "offset" offset g.

(** What the store makes of a write that passed the controller: its refusal,
    or the go-ahead. *)
Definition verdict (refusal : option HttpError) : Outcome unit :=
  match refusal with
  | Some e => Throw e
  | None => Return tt
  end.

(** A record that passes the checks of [create] and [replaceById]. *)
Definition passes_validation (c : Course.t) : Prop :=
  Course.name c <> null /\
  Course.name c <> value "" /\
  Course.status c ∈ statuses.

(** What the handlers keep true of every row of the table they fill: it
    passes the two checks, has a name, carries the id it is stored under,
    and has a [deletedAt] that is null or set. *)
Definition well_kept (w : World) : Prop :=
  forall i c, rows w !! i = Some c ->
    name_missing c = false /\
    validateStatus (Course.status c) = true /\
    Course.name c <> undefined /\
    Course.id c = value i /\
    Course.deletedAt c <> undefined.

(** A table that holds an active record whose status is none of the three:
    a row written before the status check existed, say. *)
Definition draft_row : Course.t :=
  Course.mk (value 3) (value "Draft") (value "draft")
            (value 20) (value 20) null.

Definition stale : World :=
  mkWorld {[ 3 := draft_row ]} 4 [] [] ticking 0.

(** [?filter={"limit": 1, "where": {"deletedAt": {"eq": 5}},
              "order": ["name DESC"], "fields": {"status": true}}] *)
Definition nosy : Filter :=
  mkFilter (Some [("deletedAt", Operator (Eq (JNum 5)))])
           (Some [(Pstatus, true)]) (Some [(Pname, DESC)])
           (Some (Literal (JNum 1))) None None [].

(** * Running the handlers *)

Ltac run :=
  unfold after, answer, handle, create, find, findById, replaceById,
    deleteById, Repository.create, Repository.find, Repository.findById,
    Repository.replaceById, record, setHeader, new_Date, modify, gets,
    bind, ret, throw, name_missing in *;
  cbn [negb fst snd rows nextId journal headers clock reads with_rows with_nextId
       with_journal with_headers with_reads Course.with_updatedAt
       Course.with_deletedAt Course.with_id Course.id Course.name
       Course.status Course.createdAt Course.updatedAt Course.deletedAt] in *.

Lemma is_null_true {A} (v : js A) : is_null v = true <-> v = null.
Proof. destruct v; cbn; split; congruence. Qed.

Lemma is_null_false {A} (v : js A) : is_null v = false <-> v <> null.
Proof. destruct v; cbn; split; congruence. Qed.

Lemma is_string_true (s : string) (v : js string) :
  is_string s v = true <-> v = value s.
Proof.
  destruct v as [| |t]; cbn; try (split; congruence).
  rewrite String.eqb_eq. split; congruence.
Qed.

Lemma name_missing_true (course : Course.t) :
  name_missing course = true <->
  Course.name course = null \/ Course.name course = value "".
Proof.
  unfold name_missing. rewrite orb_true_iff, is_null_true, is_string_true.
  reflexivity.
Qed.

Lemma validateStatus_true (status : js string) :
  validateStatus status = true <-> status ∈ statuses.
Proof.
  unfold validateStatus, statuses.
  destruct (is_string "scheduled" status) eqn:E1;
    [apply is_string_true in E1; subst; split; [set_solver | done] |].
  destruct (is_string "in_production" status) eqn:E2;
    [apply is_string_true in E2; subst; split; [set_solver | done] |].
  destruct (is_string "available" status) eqn:E3;
    [apply is_string_true in E3; subst; split; [set_solver | done] |].
  split; [done |]. intros Hin.
  rewrite !elem_of_cons in Hin.
  destruct Hin as [-> | [-> | [-> | Hin]]]; [done | done | done |].
  by apply elem_of_nil in Hin.
Qed.

(** The handlers, one case at a time. *)

Lemma create_rejects_name (course : Course.t) (w : World) :
  name_missing course = true ->
  create course w = (Throw (BadRequest NameRequired), w).
Proof. intros H. run. by rewrite H. Qed.

Lemma create_rejects_status (course : Course.t) (w : World) :
  name_missing course = false ->
  validateStatus (Course.status course) = false ->
  create course w = (Throw (BadRequest (InvalidStatus (Course.status course))), w).
Proof. intros H1 H2. run. rewrite H1, H2. reflexivity. Qed.

Lemma create_refused (course : Course.t) (e : HttpError) (w : World) :
  name_missing course = false ->
  validateStatus (Course.status course) = true ->
  Repository.refuses_new course = Some e ->
  create course w =
  (Throw e, with_journal (CallCreate course :: journal w) w).
Proof. intros H1 H2 H3. run. rewrite H1, H2. cbn [negb]. by rewrite H3. Qed.

Lemma create_accepts (course : Course.t) (w : World) :
  name_missing course = false ->
  validateStatus (Course.status course) = true ->
  Repository.refuses_new course = None ->
  let stored :=
    Course.with_id (value (nextId w))
                   (Repository.persist (clock w (reads w)) course) in
  create course w =
  (Return (Course.with_id (value (nextId w))
             (Repository.instantiate (clock w (reads w)) course)),
   mkWorld (<[nextId w := stored]> (rows w)) (nextId w + 1)
           (CallCreate course :: journal w)
           (("Location", "/courses/" +:+ pretty (nextId w)) :: headers w)
           (clock w) (S (reads w))).
Proof. intros H1 H2 H3. run. rewrite H1, H2. cbn [negb]. by rewrite H3. Qed.

Lemma replaceById_rejects_name (id : Z) (course : Course.t) (w : World) :
  name_missing course = true ->
  replaceById id course w =
  (Throw (BadRequest NameRequired), with_reads (S (reads w)) w).
Proof. intros H. run. by rewrite H. Qed.

Lemma replaceById_rejects_status (id : Z) (course : Course.t) (w : World) :
  name_missing course = false ->
  validateStatus (Course.status course) = false ->
  replaceById id course w =
  (Throw (BadRequest (InvalidStatus (Course.status course))),
   with_reads (S (reads w)) w).
Proof. intros H1 H2. run. rewrite H1, H2. reflexivity. Qed.

(** Stamping [updatedAt] or [deletedAt] changes nothing the store's refusal
    looks at. *)
Lemma refuses_replacement_stamped (id : Z) (t : js Time) (c : Course.t) :
  Repository.refuses_replacement id (Course.with_updatedAt t c)
  = Repository.refuses_replacement id c /\
  Repository.refuses_replacement id (Course.with_deletedAt t c)
  = Repository.refuses_replacement id c.
Proof. split; reflexivity. Qed.

Lemma replaceById_refused
    (id : Z) (course : Course.t) (e : HttpError) (w : World) :
  name_missing course = false ->
  validateStatus (Course.status course) = true ->
  Repository.refuses_replacement id course = Some e ->
  replaceById id course w =
  (Throw e,
   with_journal
     (CallReplaceById id
        (Course.with_updatedAt (value (clock w (reads w))) course) :: journal w)
     (with_reads (S (reads w)) w)).
Proof.
  intros H1 H2 H3. run. rewrite H1, H2. cbn [negb].
  rewrite (proj1 (refuses_replacement_stamped _ _ _)), H3. reflexivity.
Qed.

Lemma replaceById_unknown (id : Z) (course : Course.t) (w : World) :
  name_missing course = false ->
  validateStatus (Course.status course) = true ->
  Repository.refuses_replacement id course = None ->
  rows w !! id = None ->
  replaceById id course w =
  (Throw NotFound,
   with_journal
     (CallReplaceById id
        (Course.with_updatedAt (value (clock w (reads w))) course) :: journal w)
     (with_reads (S (reads w)) w)).
Proof.
  intros H1 H2 H3 H4. run. rewrite H1, H2. cbn [negb].
  rewrite (proj1 (refuses_replacement_stamped _ _ _)), H3.
  run. by rewrite H4.
Qed.

Lemma replaceById_accepts (id : Z) (course old : Course.t) (w : World) :
  name_missing course = false ->
  validateStatus (Course.status course) = true ->
  Repository.refuses_replacement id course = None ->
  rows w !! id = Some old ->
  let sent := Course.with_updatedAt (value (clock w (reads w))) course in
  let stored :=
    Course.with_id (value id)
                   (Repository.persist (clock w (S (reads w))) sent) in
  replaceById id course w =
  (Return tt,
   mkWorld (<[id := stored]> (rows w)) (nextId w)
           (CallReplaceById id sent :: journal w) (headers w)
           (clock w) (S (S (reads w)))).
Proof.
  intros H1 H2 H3 H4. run. rewrite H1, H2. cbn [negb].
  rewrite (proj1 (refuses_replacement_stamped _ _ _)), H3.
  run. by rewrite H4.
Qed.

Lemma findById_unknown (id : Z) (filter : option Filter) (w : World) :
  rows w !! id = None ->
  findById id filter w =
  (Throw NotFound, with_journal (CallFindById id filter :: journal w) w).
Proof. intros H. run. by rewrite H. Qed.

Lemma findById_known (id : Z) (filter : option Filter) (c : Course.t) (w : World) :
  rows w !! id = Some c ->
  findById id filter w =
  (if isDeleted (Repository.project (filter ≫= fields) c)
   then Throw Gone
   else Return (Repository.project (filter ≫= fields) c),
   with_journal (CallFindById id filter :: journal w) w).
Proof.
  intros H. run. rewrite H.
  by destruct (isDeleted (Repository.project (filter ≫= fields) c)).
Qed.

(** A projection cannot make an absent or set [deletedAt] null. *)
Lemma project_keeps_deleted (fs : option Fields) (c : Course.t) :
  isDeleted c = true -> isDeleted (Repository.project fs c) = true.
Proof.
  destruct fs as [fs|]; [|done]. unfold isDeleted. cbn.
  unfold Repository.keep. destruct (Repository.selected fs PdeletedAt); done.
Qed.

Lemma isDeleted_true (c : Course.t) :
  isDeleted c = true <-> Course.deletedAt c <> null.
Proof. unfold isDeleted. rewrite negb_true_iff. apply is_null_false. Qed.

Lemma isDeleted_false (c : Course.t) :
  isDeleted c = false <-> Course.deletedAt c = null.
Proof. unfold isDeleted. rewrite negb_false_iff. apply is_null_true. Qed.

(** The whole of what [create] does, by what it and the store test. *)
Lemma create_runs (course : Course.t) (w : World) :
  create course w =
  if name_missing course then (Throw (BadRequest NameRequired), w)
  else if validateStatus (Course.status course)
  then match Repository.refuses_new course with
       | Some e => (Throw e, with_journal (CallCreate course :: journal w) w)
       | None =>
           (Return (Course.with_id (value (nextId w))
                      (Repository.instantiate (clock w (reads w)) course)),
            mkWorld
              (<[nextId w := Course.with_id (value (nextId w))
                               (Repository.persist (clock w (reads w)) course)]>
                 (rows w))
              (nextId w + 1) (CallCreate course :: journal w)
              (("Location", "/courses/" +:+ pretty (nextId w)) :: headers w)
              (clock w) (S (reads w)))
       end
  else (Throw (BadRequest (InvalidStatus (Course.status course))), w).
Proof.
  destruct (name_missing course) eqn:Hn.
  { apply (create_rejects_name _ _ Hn). }
  destruct (validateStatus (Course.status course)) eqn:Hv.
  2: { apply (create_rejects_status _ _ Hn Hv). }
  destruct (Repository.refuses_new course) as [e|] eqn:Hs.
  - apply (create_refused _ _ _ Hn Hv Hs).
  - apply (create_accepts _ _ Hn Hv Hs).
Qed.

(** The whole of what [replaceById] does, by what it and the store test. *)
Lemma replaceById_runs (id : Z) (course : Course.t) (w : World) :
  replaceById id course w =
  let sent := Course.with_updatedAt (value (clock w (reads w))) course in
  let called :=
    with_journal (CallReplaceById id sent :: journal w)
                 (with_reads (S (reads w)) w) in
  if name_missing course
  then (Throw (BadRequest NameRequired), with_reads (S (reads w)) w)
  else if validateStatus (Course.status course)
  then match Repository.refuses_replacement id course with
       | Some e => (Throw e, called)
       | None =>
           match rows w !! id with
           | Some _ =>
               (Return tt,
                mkWorld
                  (<[id := Course.with_id (value id)
                             (Repository.persist (clock w (S (reads w))) sent)]>
                     (rows w))
                  (nextId w) (CallReplaceById id sent :: journal w) (headers w)
                  (clock w) (S (S (reads w))))
           | None => (Throw NotFound, called)
           end
       end
  else (Throw (BadRequest (InvalidStatus (Course.status course))),
        with_reads (S (reads w)) w).
Proof.
  cbv zeta. destruct (name_missing course) eqn:Hn.
  { apply (replaceById_rejects_name _ _ _ Hn). }
  destruct (validateStatus (Course.status course)) eqn:Hv.
  2: { apply (replaceById_rejects_status _ _ _ Hn Hv). }
  destruct (Repository.refuses_replacement id course) as [e|] eqn:Hs.
  { apply (replaceById_refused _ _ _ _ Hn Hv Hs). }
  destruct (rows w !! id) as [old|] eqn:Hr.
  - apply (replaceById_accepts _ _ _ _ Hn Hv Hs Hr).
  - apply (replaceById_unknown _ _ _ Hn Hv Hs Hr).
Qed.

Lemma findById_runs (id : Z) (filter : option Filter) (w : World) :
  findById id filter w =
  (match rows w !! id with
   | None => Throw NotFound
   | Some c =>
       if isDeleted (Repository.project (filter ≫= fields) c) then Throw Gone
       else Return (Repository.project (filter ≫= fields) c)
   end,
   with_journal (CallFindById id filter :: journal w) w).
Proof.
  destruct (rows w !! id) as [c|] eqn:Hr.
  - apply (findById_known _ _ _ _ Hr).
  - apply (findById_unknown _ _ _ Hr).
Qed.

(** ** What the store refuses *)

Lemma refuses_new_cases (c : Course.t) :
  Repository.refuses_new c = None \/
  Repository.refuses_new c = Some UnprocessableEntity.
Proof.
  unfold Repository.refuses_new.
  destruct (Repository.brings_id c || Repository.lacks_required c); auto.
Qed.

Lemma refuses_replacement_cases (id : Z) (c : Course.t) :
  Repository.refuses_replacement id c = None \/
  Repository.refuses_replacement id c = Some (BadRequest IdCannotBeUpdated) \/
  Repository.refuses_replacement id c = Some UnprocessableEntity.
Proof.
  unfold Repository.refuses_replacement.
  destruct (Repository.changes_id id c); [auto |].
  destruct (Repository.lacks_required c); auto.
Qed.

(** A body that passed the controller's checks and has a name lacks nothing
    the store requires. *)
Lemma lacks_required_false (c : Course.t) :
  name_missing c = false ->
  validateStatus (Course.status c) = true ->
  Course.name c <> undefined ->
  Repository.lacks_required c = false.
Proof.
  intros Hn Hv Hu. unfold Repository.lacks_required, Repository.blank.
  unfold name_missing in Hn. apply orb_false_iff in Hn as [Hnull Hn].
  destruct (Course.name c) as [| |s]; [done | done |]. cbn in Hn. rewrite Hn.
  apply validateStatus_true in Hv. unfold statuses in Hv.
  rewrite !elem_of_cons, elem_of_nil in Hv.
  destruct Hv as [-> | [-> | [-> | []]]]; reflexivity.
Qed.

(** A stored record that has a name and carries the id it is stored under
    can be written back. *)
Lemma refuses_replacement_own (id : Z) (c : Course.t) :
  name_missing c = false ->
  validateStatus (Course.status c) = true ->
  Course.name c <> undefined ->
  Course.id c = value id ->
  Repository.refuses_replacement id c = None.
Proof.
  intros Hn Hv Hu Hid. unfold Repository.refuses_replacement.
  unfold Repository.changes_id. rewrite Hid, Z.eqb_refl, andb_false_r.
  by rewrite (lacks_required_false _ Hn Hv Hu).
Qed.

Lemma refuses_new_none (c : Course.t) :
  Repository.refuses_new c = None ->
  Repository.lacks_required c = false.
Proof.
  unfold Repository.refuses_new.
  destruct (Repository.brings_id c); [done |].
  by destruct (Repository.lacks_required c).
Qed.

Lemma refuses_replacement_none (id : Z) (c : Course.t) :
  Repository.refuses_replacement id c = None ->
  Repository.lacks_required c = false.
Proof.
  unfold Repository.refuses_replacement.
  destruct (Repository.changes_id id c); [done |].
  by destruct (Repository.lacks_required c).
Qed.

(** What the store has written it accepts back under the same id. *)
Lemma refuses_replacement_stored (id : Z) (now : Time) (c : Course.t) :
  Repository.lacks_required c = false ->
  Repository.refuses_replacement id
    (Course.with_id (value id) (Repository.persist now c)) = None.
Proof.
  intros Hl. unfold Repository.refuses_replacement, Repository.changes_id.
  cbn [Course.with_id Course.id]. rewrite Z.eqb_refl, andb_false_r.
  change (Repository.lacks_required (Course.with_id _ _))
    with (Repository.lacks_required c).
  by rewrite Hl.
Qed.

(** The store's refusals reach the caller as they are, and nothing is
    written: a body without a name, and a body that carries an id. *)
Lemma store_refusals_reach_the_caller :
  answer (create nameless) one_course = Throw UnprocessableEntity /\
  answer (create renumbered) one_course = Throw UnprocessableEntity /\
  answer (replaceById 1 nameless) one_course = Throw UnprocessableEntity /\
  answer (replaceById 1 renumbered) one_course
    = Throw (BadRequest IdCannotBeUpdated) /\
  rows (after (create nameless) one_course) = rows one_course /\
  rows (after (replaceById 1 renumbered) one_course) = rows one_course.
Proof. vm_compute. repeat split; reflexivity. Qed.

(** * Input validation *)

(** C4. An input whose name is null or the empty string is rejected by both
    [create] and [replaceById] with a 400 (the name complaint), and neither
    handler calls the repository: [create] leaves the world as it was, and
    [replaceById] has only read the clock, so the table, the id counter and
    the journal of repository calls are untouched. *)
Theorem empty_name_is_rejected (course : Course.t) (id : Z) (w : World) :
  Course.name course = null \/ Course.name course = value "" ->
  (answer (create course) w = Throw (BadRequest NameRequired) /\
   after (create course) w = w) /\
  (answer (replaceById id course) w = Throw (BadRequest NameRequired) /\
   rows (after (replaceById id course) w) = rows w /\
   nextId (after (replaceById id course) w) = nextId w /\
   journal (after (replaceById id course) w) = journal w) /\
  statusCode (BadRequest NameRequired) = 400.
Proof.
  intros H. apply name_missing_true in H. unfold answer, after.
  rewrite (create_rejects_name _ _ H), (replaceById_rejects_name _ _ _ H).
  done.
Qed.

Lemma empty_name_is_rejected_witness :
  (answer (create unnamed) one_course = Throw (BadRequest NameRequired) /\
   after (create unnamed) one_course = one_course) /\
  (answer (replaceById 1 unnamed) one_course = Throw (BadRequest NameRequired) /\
   rows (after (replaceById 1 unnamed) one_course) = rows one_course /\
   nextId (after (replaceById 1 unnamed) one_course) = nextId one_course /\
   journal (after (replaceById 1 unnamed) one_course) = journal one_course) /\
  statusCode (BadRequest NameRequired) = 400.
Proof. apply (empty_name_is_rejected unnamed 1 one_course). right. reflexivity. Defined.

(** C5. An input whose status is not one of 'scheduled', 'in_production',
    'available' is rejected by both [create] and [replaceById] with a 400 and
    nothing is written; [validateStatus] answers true exactly on the three
    values, so an input whose status is one of them passes the status check
    and neither handler complains about its status. *)
Theorem status_is_validated (course : Course.t) (id : Z) (w : World) :
  (Course.status course ∉ statuses ->
   (exists e, answer (create course) w = Throw e /\ statusCode e = 400) /\
   after (create course) w = w /\
   (exists e, answer (replaceById id course) w = Throw e /\ statusCode e = 400) /\
   rows (after (replaceById id course) w) = rows w /\
   journal (after (replaceById id course) w) = journal w) /\
  (Course.status course ∈ statuses ->
   validateStatus (Course.status course) = true /\
   (forall s, answer (create course) w <> Throw (BadRequest (InvalidStatus s))) /\
   (forall s, answer (replaceById id course) w <> Throw (BadRequest (InvalidStatus s)))).
Proof.
  split; intros Hs.
  - assert (validateStatus (Course.status course) = false) as Hv.
    { destruct (validateStatus (Course.status course)) eqn:E; [|done].
      by apply validateStatus_true in E. }
    unfold answer, after. destruct (name_missing course) eqn:Hn.
    + rewrite (create_rejects_name _ _ Hn), (replaceById_rejects_name _ _ _ Hn).
      cbn. eauto 10.
    + rewrite (create_rejects_status _ _ Hn Hv),
        (replaceById_rejects_status _ _ _ Hn Hv).
      cbn. eauto 10.
  - apply validateStatus_true in Hs. split; [done |].
    unfold answer. rewrite create_runs, replaceById_runs. cbv zeta. rewrite Hs.
    destruct (name_missing course); [done |]. split; intros s.
    + destruct (refuses_new_cases course) as [-> | ->]; done.
    + destruct (refuses_replacement_cases id course) as [-> | [-> | ->]];
        [destruct (rows w !! id) | |]; done.
Qed.

Lemma status_is_validated_witness :
  ((exists e, answer (create bogus) one_course = Throw e /\ statusCode e = 400) /\
   after (create bogus) one_course = one_course /\
   (exists e, answer (replaceById 1 bogus) one_course = Throw e /\ statusCode e = 400) /\
   rows (after (replaceById 1 bogus) one_course) = rows one_course /\
   journal (after (replaceById 1 bogus) one_course) = journal one_course) /\
  (validateStatus (Course.status intro_to_go) = true /\
   (forall s, answer (create intro_to_go) one_course
              <> Throw (BadRequest (InvalidStatus s))) /\
   (forall s, answer (replaceById 1 intro_to_go) one_course
              <> Throw (BadRequest (InvalidStatus s)))).
Proof.
  split.
  - apply (status_is_validated bogus 1 one_course).
    unfold statuses. cbn. rewrite !elem_of_cons, elem_of_nil.
    intros [H | [H | [H | H]]]; try discriminate H; exact H.
  - apply (status_is_validated intro_to_go 1 one_course).
    unfold statuses. cbn. apply elem_of_cons. left. reflexivity.
Defined.

(** C10, as stated, fails: a body without a name passes the name check, but
    it is forwarded to the repository only if its status is valid as well.
    With status 'bogus' both handlers stop at the status check and the
    repository is never called. *)
Lemma absent_name_bad_status_not_forwarded :
  Course.name nameless_bogus = undefined /\
  answer (create nameless_bogus) one_course
    = Throw (BadRequest (InvalidStatus (value "bogus"))) /\
  journal (after (create nameless_bogus) one_course) = journal one_course /\
  answer (replaceById 1 nameless_bogus) one_course
    = Throw (BadRequest (InvalidStatus (value "bogus"))) /\
  journal (after (replaceById 1 nameless_bogus) one_course) = journal one_course.
Proof. vm_compute. done. Qed.

(** C10, amended. The name check of [create] and of [replaceById] rejects
    exactly the inputs whose name is strictly null or strictly the empty
    string.  An input whose name is absent passes both name checks, and when
    its status is one of the three valid values the request is forwarded to
    the repository: [create] calls the repository's create with the body, and
    [replaceById] calls the repository's replaceById with the body stamped
    with the new [updatedAt]. *)
Theorem absent_name_passes_name_check (course : Course.t) (id : Z) (w : World) :
  (answer (create course) w = Throw (BadRequest NameRequired) <->
   Course.name course = null \/ Course.name course = value "") /\
  (answer (replaceById id course) w = Throw (BadRequest NameRequired) <->
   Course.name course = null \/ Course.name course = value "") /\
  (Course.name course = undefined ->
   Course.status course ∈ statuses ->
   journal (after (create course) w) = CallCreate course :: journal w /\
   journal (after (replaceById id course) w)
     = CallReplaceById id
         (Course.with_updatedAt (value (clock w (reads w))) course)
       :: journal w).
Proof.
  rewrite <- !name_missing_true. unfold answer, after.
  rewrite create_runs, replaceById_runs. cbv zeta.
  destruct (name_missing course) eqn:Hn.
  - split; [done |]. split; [done |].
    intros Hu. unfold name_missing in Hn. by rewrite Hu in Hn.
  - destruct (validateStatus (Course.status course)) eqn:Hv.
    + split; [| split].
      * destruct (refuses_new_cases course) as [-> | ->]; done.
      * destruct (refuses_replacement_cases id course) as [-> | [-> | ->]];
          [destruct (rows w !! id) | |]; done.
      * intros _ _.
        destruct (refuses_new_cases course) as [-> | ->];
          (destruct (refuses_replacement_cases id course) as [-> | [-> | ->]];
           [destruct (rows w !! id) | |]); done.
    + split; [done |]. split; [done |].
      intros _ Hs. apply validateStatus_true in Hs. congruence.
Qed.

Lemma absent_name_passes_name_check_witness :
  journal (after (create nameless) one_course)
    = CallCreate nameless :: journal one_course /\
  journal (after (replaceById 1 nameless) one_course)
    = CallReplaceById 1
        (Course.with_updatedAt
           (value (clock one_course (reads one_course))) nameless)
      :: journal one_course.
Proof.
  apply (absent_name_passes_name_check nameless 1 one_course).
  - reflexivity.
  - unfold statuses. cbn. rewrite !elem_of_cons. right. right. left. reflexivity.
Defined.

(** * Reading one course *)

(** C9. A stored record whose [deletedAt] property is absent, rather than
    null, counts as deleted: [isDeleted] tests [deletedAt === null], which is
    false for it, and [findById] fails with Gone whatever filter is sent. *)
Theorem absent_deletedAt_is_gone
    (id : Z) (filter : option Filter) (c : Course.t) (w : World) :
  rows w !! id = Some c ->
  Course.deletedAt c = undefined ->
  isDeleted c = true /\
  answer (findById id filter) w = Throw Gone.
Proof.
  intros Hr Hu.
  assert (isDeleted c = true) as Hd by (unfold isDeleted; by rewrite Hu).
  split; [done |]. unfold answer. rewrite (findById_known _ _ _ _ Hr).
  by rewrite (project_keeps_deleted _ _ Hd).
Qed.

Lemma absent_deletedAt_is_gone_witness :
  isDeleted legacy_row = true /\
  answer (findById 7 None) legacy = Throw Gone.
Proof.
  apply (absent_deletedAt_is_gone 7 None legacy_row legacy); reflexivity.
Defined.

(** C7. [findById] fails with NotFound when the table has no record under the
    id; fails with Gone, and so returns no body, when the record exists and
    its [deletedAt] is not null; and otherwise, called with the id alone (or
    with a filter that projects no fields), returns the stored record whole.
    The table is left as it was in every case. *)
Theorem findById_outcomes (id : Z) (w : World) :
  (rows w !! id = None ->
   forall filter, answer (findById id filter) w = Throw NotFound) /\
  (forall c, rows w !! id = Some c -> Course.deletedAt c <> null ->
   forall filter, answer (findById id filter) w = Throw Gone) /\
  (forall c, rows w !! id = Some c -> Course.deletedAt c = null ->
   answer (findById id None) w = Return c /\
   forall filter, filter ≫= fields = None ->
     answer (findById id filter) w = Return c) /\
  (forall filter, rows (after (findById id filter) w) = rows w).
Proof.
  unfold answer, after. split; [| split; [| split]].
  - intros Hr filter. by rewrite (findById_unknown _ _ _ Hr).
  - intros c Hr Hd filter. rewrite (findById_known _ _ _ _ Hr).
    apply isDeleted_true in Hd. by rewrite (project_keeps_deleted _ _ Hd).
  - intros c Hr Hd. apply isDeleted_false in Hd. split.
    + rewrite (findById_known _ _ _ _ Hr). cbn. by rewrite Hd.
    + intros filter Hf. rewrite (findById_known _ _ _ _ Hr), Hf. cbn.
      by rewrite Hd.
  - intros filter. destruct (rows w !! id) as [c|] eqn:Hr.
    + by rewrite (findById_known _ _ _ _ Hr).
    + by rewrite (findById_unknown _ _ _ Hr).
Qed.

Lemma findById_outcomes_witness :
  answer (findById 2 None) one_course = Throw NotFound /\
  answer (findById 1 None) one_deleted = Throw Gone /\
  answer (findById 1 None) one_course
    = Return (Course.mk (value 1) (value "Intro to Go") (value "scheduled")
                        (value 1000) (value 1000) null).
Proof.
  split; [| split].
  - apply (findById_outcomes 2 one_course). reflexivity.
  - eapply (findById_outcomes 1 one_deleted); [reflexivity | discriminate].
  - eapply (findById_outcomes 1 one_course); reflexivity.
Defined.

(** * Soft delete *)

Lemma deleteById_unknown (id : Z) (w : World) :
  rows w !! id = None ->
  deleteById id w =
  (Throw NotFound, with_journal (CallFindById id None :: journal w) w).
Proof.
  intros Hr. unfold deleteById, bind. by rewrite (findById_unknown _ _ _ Hr).
Qed.

Lemma deleteById_deleted (id : Z) (c : Course.t) (w : World) :
  rows w !! id = Some c ->
  isDeleted c = true ->
  deleteById id w =
  (Throw Gone, with_journal (CallFindById id None :: journal w) w).
Proof.
  intros Hr Hd. unfold deleteById, bind. rewrite (findById_known _ _ _ _ Hr).
  cbn. by rewrite Hd.
Qed.

Lemma deleteById_active (id : Z) (c : Course.t) (w : World) :
  rows w !! id = Some c ->
  isDeleted c = false ->
  deleteById id w =
  replaceById id (Course.with_deletedAt (value (clock w (reads w))) c)
    (with_reads (S (reads w))
       (with_journal (CallFindById id None :: journal w) w)).
Proof.
  intros Hr Hd. unfold deleteById, bind at 1. rewrite (findById_known _ _ _ _ Hr).
  cbn [mbind option_bind Repository.project]. rewrite Hd.
  cbv beta iota. rewrite Hd. unfold bind, new_Date. reflexivity.
Qed.

(** C3, as stated, fails: the record that [deleteById] hands to the store
    differs from the fetched one in [updatedAt] too, because the write goes
    through [replaceById], which stamps [updatedAt] with its own reading of
    the clock. *)
Lemma deleteById_changes_updatedAt :
  rows one_course !! 1 = Some intro_stored /\
  Course.deletedAt intro_stored = null /\
  answer (deleteById 1) one_course = Return tt /\
  journal (after (deleteById 1) one_course)
    = [CallReplaceById 1
         (Course.mk (value 1) (value "Intro to Go") (value "scheduled")
                    (value 1000) (value 1002) (value 1001));
       CallFindById 1 None;
       CallCreate intro_to_go] /\
  rows (after (deleteById 1) one_course) !! 1
    = Some (Course.mk (value 1) (value "Intro to Go") (value "scheduled")
                      (value 1000) (value 1002) (value 1001)) /\
  Course.updatedAt intro_stored = value 1000 /\
  Course.mk (value 1) (value "Intro to Go") (value "scheduled")
            (value 1000) (value 1002) (value 1001)
    <> Course.with_deletedAt (value 1001) intro_stored.
Proof. vm_compute. repeat split; done. Qed.

(** C3, amended. A successful [deleteById] of an active record hands the
    store a record identical to the fetched one except for two fields:
    [deletedAt], set to the time read by [deleteById], and [updatedAt], set to
    the time read by the [replaceById] it goes through.  [id], [name],
    [status] and [createdAt] are the fetched ones, and the store keeps the
    record it was handed under the same id. *)
Theorem deleteById_writes_back (id : Z) (c : Course.t) (w : World) :
  rows w !! id = Some c ->
  Course.deletedAt c = null ->
  answer (deleteById id) w = Return tt ->
  let written :=
    Course.mk (Course.id c) (Course.name c) (Course.status c)
              (Course.createdAt c)
              (value (clock w (S (reads w))))
              (value (clock w (reads w))) in
  journal (after (deleteById id) w)
    = CallReplaceById id written :: CallFindById id None :: journal w /\
  rows (after (deleteById id) w)
    = <[id := Course.with_id (value id)
                (Repository.persist (clock w (S (S (reads w)))) written)]>
        (rows w).
Proof.
  intros Hr Hd Hok written. apply isDeleted_false in Hd.
  unfold answer, after in *. rewrite (deleteById_active _ _ _ Hr Hd) in *.
  rewrite replaceById_runs in *. cbv zeta in *.
  destruct (name_missing _); [done |].
  destruct (validateStatus _); [| done].
  destruct (Repository.refuses_replacement id _); [done |].
  cbn [rows with_reads with_journal] in *. rewrite Hr in *.
  split; reflexivity.
Qed.

Lemma deleteById_writes_back_witness :
  journal (after (deleteById 1) one_course)
    = CallReplaceById 1
        (Course.mk (value 1) (value "Intro to Go") (value "scheduled")
                   (value 1000) (value 1002) (value 1001))
      :: CallFindById 1 None :: journal one_course /\
  rows (after (deleteById 1) one_course)
    = <[1 := Course.mk (value 1) (value "Intro to Go") (value "scheduled")
                       (value 1000) (value 1002) (value 1001)]>
        (rows one_course).
Proof.
  apply (deleteById_writes_back 1 intro_stored one_course); reflexivity.
Defined.

(** * Updating a soft-deleted record *)




(** * Deleting twice *)

(** C8, as stated, fails for a record that is created with a [deletedAt]
    already set: the body of [POST /courses] may carry one, the store keeps
    it, and the first [deleteById] already fails with Gone. *)
Lemma first_delete_of_born_deleted_is_gone :
  answer (create born_deleted) (initial ticking)
    = Return (Course.mk (value 1) (value "Old") (value "available")
                        (value 1000) (value 1000) (value 5)) /\
  answer (deleteById 1) (after (create born_deleted) (initial ticking))
    = Throw Gone.
Proof. vm_compute. done. Qed.

(** C8, amended. For every record created with [deletedAt] absent or null
    and then deleted twice in a row: the first [deleteById] succeeds and
    leaves the record soft-deleted, and the second fails with Gone and leaves
    the table as the first one left it. *)
Theorem delete_twice (course created : Course.t) (w : World) :
  answer (create course) w = Return created ->
  Course.deletedAt course = undefined \/ Course.deletedAt course = null ->
  exists id,
    Course.id created = value id /\
    answer (deleteById id) (after (create course) w) = Return tt /\
    (exists c, rows (after (deleteById id) (after (create course) w)) !! id
                 = Some c /\ Course.deletedAt c <> null) /\
    answer (deleteById id) (after (deleteById id) (after (create course) w))
      = Throw Gone /\
    rows (after (deleteById id) (after (deleteById id) (after (create course) w)))
      = rows (after (deleteById id) (after (create course) w)).
Proof.
  intros Hc Hd. unfold answer, after in *. rewrite create_runs in *.
  destruct (name_missing course) eqn:Hn; [done |].
  destruct (validateStatus (Course.status course)) eqn:Hv; [| done].
  destruct (Repository.refuses_new course) as [e|] eqn:Hnew; [done |].
  cbn [fst snd] in *. injection Hc as <-. exists (nextId w). split; [done |].
  set (stored := Course.with_id (value (nextId w)) (Repository.persist _ course)).
  set (w1 := mkWorld _ _ _ _ _ _).
  assert (rows w1 !! nextId w = Some stored) as Hr1 by apply lookup_insert_eq.
  assert (isDeleted stored = false) as Ha.
  { unfold isDeleted, stored. cbn. by destruct Hd as [-> | ->]. }
  assert (forall t, Repository.refuses_replacement (nextId w)
                      (Course.with_deletedAt t stored) = None) as Hback.
  { intros t. rewrite (proj2 (refuses_replacement_stamped _ _ _)).
    apply refuses_replacement_stored, refuses_new_none, Hnew. }
  rewrite (deleteById_active _ _ _ Hr1 Ha).
  set (sent := Course.with_deletedAt _ stored).
  set (w2 := with_reads _ _).
  assert (rows w2 !! nextId w = Some stored) as Hr2 by exact Hr1.
  rewrite (replaceById_accepts _ sent _ _ Hn Hv (Hback _) Hr2). cbn [fst snd].
  set (gone := Course.with_id _ _).
  set (w3 := mkWorld _ _ _ _ _ _).
  assert (rows w3 !! nextId w = Some gone) as Hr3 by apply lookup_insert_eq.
  assert (isDeleted gone = true) as Hg by reflexivity.
  rewrite (deleteById_deleted _ _ _ Hr3 Hg). cbn [fst snd].
  split; [done |]. split; [| done].
  exists gone. split; [done |]. by apply isDeleted_true.
Qed.

Lemma delete_twice_witness :
  exists id,
    Course.id intro_created = value id /\
    answer (deleteById id) (after (create intro_to_go) (initial ticking))
      = Return tt /\
    (exists c,
       rows (after (deleteById id) (after (create intro_to_go) (initial ticking)))
         !! id = Some c /\ Course.deletedAt c <> null) /\
    answer (deleteById id)
      (after (deleteById id) (after (create intro_to_go) (initial ticking)))
      = Throw Gone /\
    rows (after (deleteById id)
            (after (deleteById id) (after (create intro_to_go) (initial ticking))))
      = rows (after (deleteById id) (after (create intro_to_go) (initial ticking))).
Proof.
  apply (delete_twice intro_to_go intro_created (initial ticking)).
  - reflexivity.
  - left. reflexivity.
Defined.

(** * The two states of a record *)

Lemma after_bind_ret {A B} (m : M A) (f : A -> B) (w : World) :
  after (bind m (fun a => ret (f a))) w = after m w.
Proof. unfold after, bind, ret. by destruct (m w) as [[a|e] w']. Qed.

Lemma after_handle (r : Request) (w : World) :
  after (handle r) w =
  match r with
  | POST_courses course => after (create course) w
  | GET_courses filter => after (find filter) w
  | GET_courses_id id filter => after (findById id filter) w
  | PUT_courses_id id course => after (replaceById id course) w
  | DELETE_courses_id id => after (deleteById id) w
  end.
Proof. destruct r; apply after_bind_ret. Qed.

Lemma find_frame (filter : option Filter) (w : World) :
  rows (after (find filter) w) = rows w /\
  nextId (after (find filter) w) = nextId w.
Proof. done. Qed.

Lemma findById_frame (id : Z) (filter : option Filter) (w : World) :
  rows (after (findById id filter) w) = rows w /\
  nextId (after (findById id filter) w) = nextId w.
Proof.
  unfold after. destruct (rows w !! id) as [c|] eqn:Hr.
  - by rewrite (findById_known _ _ _ _ Hr).
  - by rewrite (findById_unknown _ _ _ Hr).
Qed.

Lemma create_frame (course : Course.t) (w : World) :
  (rows (after (create course) w) = rows w /\
   nextId (after (create course) w) = nextId w) \/
  exists stored,
    rows (after (create course) w) = <[nextId w := stored]> (rows w) /\
    nextId (after (create course) w) = nextId w + 1.
Proof.
  unfold after. rewrite create_runs.
  destruct (name_missing course); [by left |].
  destruct (validateStatus (Course.status course)); [| by left].
  destruct (Repository.refuses_new course); [by left |].
  right. eauto.
Qed.

Lemma replaceById_frame (id : Z) (course : Course.t) (w : World) :
  nextId (after (replaceById id course) w) = nextId w /\
  (rows (after (replaceById id course) w) = rows w \/
   exists old stored,
     rows w !! id = Some old /\
     Course.deletedAt stored = Repository.or_null (Course.deletedAt course) /\
     rows (after (replaceById id course) w) = <[id := stored]> (rows w)).
Proof.
  unfold after. rewrite replaceById_runs. cbv zeta.
  destruct (name_missing course); [auto |].
  destruct (validateStatus (Course.status course)); [| auto].
  destruct (Repository.refuses_replacement id course); [auto |].
  destruct (rows w !! id) as [old|] eqn:Hr; [| auto].
  split; [done |]. right. eexists old, _. split; [done |]. split; [| done].
  done.
Qed.

Lemma deleteById_frame (id : Z) (w : World) :
  nextId (after (deleteById id) w) = nextId w /\
  (rows (after (deleteById id) w) = rows w \/
   exists old stored,
     rows w !! id = Some old /\
     Course.deletedAt old = null /\
     Course.deletedAt stored <> null /\
     rows (after (deleteById id) w) = <[id := stored]> (rows w)).
Proof.
  unfold after. destruct (rows w !! id) as [c|] eqn:Hr.
  2: { rewrite (deleteById_unknown _ _ Hr). auto. }
  destruct (isDeleted c) eqn:Hd.
  { rewrite (deleteById_deleted _ _ _ Hr Hd). auto. }
  rewrite (deleteById_active _ _ _ Hr Hd).
  set (sent := Course.with_deletedAt _ c). set (w1 := with_reads _ _).
  destruct (replaceById_frame id sent w1) as [Hn [Hsame | Hw]].
  - unfold after in *. auto.
  - unfold after in *. split; [done |]. right.
    destruct Hw as (old & stored & Hold & Hdel & Hrows).
    exists c, stored. split; [done |]. split; [by apply isDeleted_false |].
    split; [| done]. rewrite Hdel. done.
Qed.

(** Serving a request keeps the generated ids fresh. *)
Lemma handle_fresh_ids (r : Request) (w : World) :
  fresh_ids w -> fresh_ids (after (handle r) w).
Proof.
  intros Hf. rewrite after_handle. unfold fresh_ids in *. destruct r.
  - destruct (create_frame course w) as [[-> ->] | (stored & Hr & Hn)]; [done |].
    rewrite Hr, Hn. intros i. rewrite lookup_insert.
    case_decide; [lia |]. intros Hi. specialize (Hf i Hi). lia.
  - by destruct (find_frame filter w) as [-> ->].
  - by destruct (findById_frame id filter w) as [-> ->].
  - destruct (replaceById_frame id course w)
      as [-> [-> | (old & stored & Hold & _ & ->)]]; [done |].
    intros i. rewrite lookup_insert. case_decide; [subst | by auto].
    intros _. apply Hf. by rewrite Hold.
  - destruct (deleteById_frame id w)
      as [-> [-> | (old & stored & Hold & _ & _ & ->)]]; [done |].
    intros i. rewrite lookup_insert. case_decide; [subst | by auto].
    intros _. apply Hf. by rewrite Hold.
Qed.

Lemma reachable_fresh_ids (w : World) : reachable w -> fresh_ids w.
Proof.
  induction 1 as [clock | w r _ IH].
  - intros i [c Hc]. unfold initial in Hc. cbn [rows] in Hc.
    by rewrite lookup_empty in Hc.
  - by apply handle_fresh_ids.
Qed.

(** C2, as stated, fails on both counts, through [replaceById]: a PUT whose
    body carries a [deletedAt] turns the active record of [one_course] into a
    deleted one without [deleteById], and a PUT whose body carries none
    returns the deleted record of [one_deleted] to active. *)
Lemma replaceById_moves_both_ways :
  reachable one_course /\
  (rows one_course !! 1 ≫= fun c => Some (Course.deletedAt c)) = Some null /\
  (rows (after (handle (PUT_courses_id 1 born_deleted)) one_course) !! 1
     ≫= fun c => Some (Course.deletedAt c)) = Some (value 5) /\
  reachable one_deleted /\
  (rows one_deleted !! 1 ≫= fun c => Some (Course.deletedAt c))
    = Some (value 1001) /\
  (rows (after (handle (PUT_courses_id 1 renamed)) one_deleted) !! 1
     ≫= fun c => Some (Course.deletedAt c)) = Some null.
Proof.
  assert (reachable one_course) as H1.
  { unfold one_course.
    rewrite <- (after_handle (POST_courses intro_to_go)). repeat constructor. }
  assert (reachable one_deleted) as H2.
  { unfold one_deleted.
    rewrite <- (after_handle (DELETE_courses_id 1)). by constructor. }
  split; [exact H1 |]. split; [by vm_compute |]. split; [by vm_compute |].
  split; [exact H2 |]. split; by vm_compute.
Qed.

(** C2, amended. In every reachable world no request removes a record, and:
    [create], [find] and [findById] leave every stored record as it is;
    [deleteById] changes a record only by turning the active record it is
    aimed at into a deleted one, so through [deleteById] the transition is
    one-way; [replaceById] changes only the record it is aimed at and stores
    the [deletedAt] of its body (null when the body has none), so it can both
    set [deletedAt] and clear it. *)
Theorem deletedAt_transitions
    (w : World) (r : Request) (i : Z) (c : Course.t) :
  reachable w ->
  rows w !! i = Some c ->
  exists c',
    rows (after (handle r) w) !! i = Some c' /\
    match r with
    | PUT_courses_id id course =>
        c' = c \/
        (i = id /\
         Course.deletedAt c' = Repository.or_null (Course.deletedAt course))
    | DELETE_courses_id id =>
        c' = c \/
        (i = id /\ Course.deletedAt c = null /\ Course.deletedAt c' <> null)
    | POST_courses _ | GET_courses _ | GET_courses_id _ _ => c' = c
    end.
Proof.
  intros Hreach Hc. apply reachable_fresh_ids in Hreach.
  rewrite after_handle. destruct r.
  - destruct (create_frame course w) as [[-> _] | (stored & Hr & _)]; [eauto |].
    exists c. split; [| done]. rewrite Hr, lookup_insert_ne; [done |].
    assert (i < nextId w) by (apply Hreach; by rewrite Hc). lia.
  - destruct (find_frame filter w) as [-> _]. eauto.
  - destruct (findById_frame id filter w) as [-> _]. eauto.
  - destruct (replaceById_frame id course w)
      as [_ [-> | (old & stored & Hold & Hdel & ->)]]; [eauto |].
    destruct (decide (i = id)) as [-> | Hne].
    + exists stored. rewrite lookup_insert_eq. eauto.
    + exists c. rewrite lookup_insert_ne by done. eauto.
  - destruct (deleteById_frame id w)
      as [_ [-> | (old & stored & Hold & Hact & Hdel & ->)]]; [eauto |].
    destruct (decide (i = id)) as [-> | Hne].
    + exists stored. rewrite lookup_insert_eq. split; [done |]. right.
      rewrite Hc in Hold. injection Hold as ->. done.
    + exists c. rewrite lookup_insert_ne by done. eauto.
Qed.

Lemma deletedAt_transitions_witness :
  exists c',
    rows (after (handle (DELETE_courses_id 1)) one_course) !! 1 = Some c' /\
    (c' = intro_stored \/
     (1 = 1 /\ Course.deletedAt intro_stored = null /\
      Course.deletedAt c' <> null)).
Proof.
  apply (deletedAt_transitions one_course (DELETE_courses_id 1) 1 intro_stored).
  - unfold one_course.
    rewrite <- (after_handle (POST_courses intro_to_go)).
    apply reachable_step, reachable_initial.
  - reflexivity.
Defined.

(** * Listing *)

Lemma matches_active_only (c : Course.t) :
  Repository.matches active_only c = is_null (Course.deletedAt c).
Proof. unfold Repository.matches. cbn. by destruct (Course.deletedAt c). Qed.

Lemma project_id_and_name (c : Course.t) :
  Repository.project (Some id_and_name) c = summary c.
Proof. reflexivity. Qed.

Lemma precedes_by_creation (a b : Course.t) :
  Repository.precedes by_creation a b <-> oldest_first a b.
Proof.
  unfold Repository.precedes, oldest_first. cbn.
  destruct (Course.createdAt a), (Course.createdAt b); cbn;
    rewrite ?Z.leb_le; split; done.
Qed.

#[local] Instance oldest_first_total : Total oldest_first.
Proof.
  intros a b. unfold oldest_first.
  destruct (Course.createdAt a), (Course.createdAt b); auto. lia.
Qed.

#[local] Instance oldest_first_trans : Transitive oldest_first.
Proof.
  intros a b c. unfold oldest_first.
  destruct (Course.createdAt a), (Course.createdAt b), (Course.createdAt c);
    auto; try done. lia.
Qed.

#[local] Instance precedes_by_creation_total :
  Total (Repository.precedes by_creation).
Proof. intros a b. rewrite !precedes_by_creation. apply oldest_first_total. Qed.

#[local] Instance precedes_by_creation_trans :
  Transitive (Repository.precedes by_creation).
Proof.
  intros a b c. rewrite !precedes_by_creation. apply oldest_first_trans.
Qed.

Lemma StronglySorted_by_creation (l : list Course.t) :
  StronglySorted (Repository.precedes by_creation) l ->
  StronglySorted oldest_first l.
Proof.
  induction 1 as [| a l _ IH Hall]; constructor; [done |].
  eapply Forall_impl; [exact Hall |]. intros b. apply precedes_by_creation.
Qed.

(** The filter [find] sends to the store for a caller's filter. *)
Lemma find_runs (filter : option Filter) (w : World) :
  find filter w =
  let sent :=
    mkFilter (Some active_only) (Some id_and_name) (Some by_creation)
             (spread "limit" limit filter) (spread "skip" skip filter)
             (spread "offset" offset filter)
             (default [] (filter ≫= where_) ++ from_option rest [] filter) in
  (Return (summary <$>
           Repository.page sent
             (merge_sort (Repository.precedes by_creation)
                (List.filter (Repository.matches active_only)
                             (Repository.table w)))),
   with_journal (CallFind sent :: journal w) w).
Proof. reflexivity. Qed.

(** The two facts about pagination that the listing rests on. *)
Lemma page_sublist {A} (f : Filter) (l : list A) :
  Repository.page f l `sublist_of` l.
Proof.
  unfold Repository.page. destruct (Repository.count (limit f)).
  - etrans; [apply sublist_take | apply sublist_drop].
  - apply sublist_drop.
Qed.

Lemma page_whole {A} (f : Filter) (l : list A) :
  limit f = None -> skip f = None -> offset f = None ->
  Repository.page f l = l.
Proof.
  intros Hl Hs Ho. unfold Repository.page, Repository.start.
  by rewrite Hl, Hs, Ho.
Qed.

Lemma elem_of_table (c : Course.t) (w : World) :
  c ∈ Repository.table w <-> exists i, rows w !! i = Some c.
Proof.
  unfold Repository.table. rewrite list_elem_of_fmap. split.
  - intros [[i c'] [-> Hin]]. exists i. by apply elem_of_map_to_list.
  - intros [i Hi]. exists (i, c). split; [done |].
    by apply elem_of_map_to_list.
Qed.

(** The limit reaches the store from the where clause as well. *)
Lemma find_takes_the_limit_from_where :
  answer (find (Some smuggled)) two_courses
    = answer (find (Some first_only)) two_courses.
Proof. vm_compute. reflexivity. Qed.

(** A pagination key that holds zero is as good as absent: [limit: 0] lists
    every record, and [skip: 0] leaves the say to [offset]. *)
Lemma zero_counts_as_absent :
  answer (find (Some (mkFilter None None None
                        (Some (Literal (JNum 0))) None None []))) two_courses
    = answer (find None) two_courses /\
  answer (find (Some (mkFilter None None None None
                        (Some (Literal (JNum 0))) (Some (Literal (JNum 1)))
                        []))) two_courses
    = Return [Course.mk (value 2) (value "Renamed")
                        undefined undefined undefined undefined].
Proof. vm_compute. split; reflexivity. Qed.

(** C6, as stated, fails for a caller's filter that paginates: [find]
    overwrites [where], [order] and [fields] but keeps the caller's [limit],
    [skip] and [offset].  With [limit: 1] the listing of [two_courses] stops
    after the first record although the second is active too. *)
Lemma find_keeps_the_callers_limit :
  answer (find (Some first_only)) two_courses
    = Return [Course.mk (value 1) (value "Intro to Go")
                        undefined undefined undefined undefined] /\
  rows two_courses !! 2
    = Some (Course.mk (value 2) (value "Renamed") (value "available")
                      (value 1001) (value 1001) null).
Proof. vm_compute. done. Qed.

(** C6, amended. For every store content and every caller-supplied filter,
    [find] answers from the list [l] of exactly the stored records whose
    [deletedAt] is null, sorted by [createdAt] ascending (oldest first): what
    it returns is a part of [l], in the order of [l], projected to [id] and
    [name], and it is the whole of [l] when no [limit], [skip] or [offset]
    reaches the store, that is when neither the caller's filter nor its
    where clause has such a key.  So every record listed is the projection
    of a stored record whose [deletedAt] is null: soft-deleted records never
    appear.  The table is left as it was. *)
Theorem find_lists_active_oldest_first (filter : option Filter) (w : World) :
  exists l : list Course.t,
    l ≡ₚ List.filter (fun c => is_null (Course.deletedAt c))
                     (Repository.table w) /\
    StronglySorted oldest_first l /\
    (exists shown,
       shown `sublist_of` l /\
       answer (find filter) w = Return (summary <$> shown) /\
       forall x, x ∈ summary <$> shown ->
         exists i c, rows w !! i = Some c /\
                     Course.deletedAt c = null /\
                     x = summary c) /\
    (unpaged filter -> answer (find filter) w = Return (summary <$> l)) /\
    rows (after (find filter) w) = rows w.
Proof.
  set (l := merge_sort (Repository.precedes by_creation)
              (List.filter (Repository.matches active_only)
                           (Repository.table w))).
  assert (l ≡ₚ List.filter (fun c => is_null (Course.deletedAt c))
                           (Repository.table w)) as Hperm.
  { unfold l. rewrite merge_sort_Permutation.
    by rewrite (List.filter_ext _ _ matches_active_only). }
  exists l. split; [exact Hperm |]. split.
  { apply StronglySorted_by_creation, StronglySorted_merge_sort; apply _. }
  unfold answer, after. rewrite find_runs. cbv zeta. fold l. cbn [fst snd].
  split; [| split; [| done]].
  - eexists. split; [apply page_sublist |]. split; [reflexivity |].
    intros x Hx. apply list_elem_of_fmap in Hx as (c & -> & Hc).
    apply (sublist_subseteq _ _ (page_sublist _ l)) in Hc.
    rewrite Hperm in Hc.
    apply list_elem_of_In, List.filter_In in Hc as [Hin Hnull].
    apply list_elem_of_In, elem_of_table in Hin as [i Hi].
    exists i, c. split; [done |]. split; [| done]. by apply is_null_true.
  - intros (Hl & Hs & Ho). by rewrite page_whole.
Qed.

Lemma find_lists_active_oldest_first_witness :
  exists l : list Course.t,
    l ≡ₚ List.filter (fun c => is_null (Course.deletedAt c))
                     (Repository.table two_courses) /\
    StronglySorted oldest_first l /\
    answer (find None) two_courses = Return (summary <$> l).
Proof.
  destruct (find_lists_active_oldest_first None two_courses)
    as (l & Hperm & Hsorted & _ & Hall & _).
  exists l. split; [exact Hperm |]. split; [exact Hsorted |].
  apply Hall. split; [| split]; reflexivity.
Defined.

(** * The handlers taken together *)

Lemma answer_bind_ret {A B} (m : M A) (f : A -> B) (w : World) :
  answer (bind m (fun a => ret (f a))) w =
  match answer m w with
  | Return a => Return (f a)
  | Throw e => Throw e
  end.
Proof. unfold answer, bind, ret. by destruct (m w) as [[a|e] w']. Qed.

Lemma answer_handle (r : Request) (w : World) :
  answer (handle r) w =
  match r with
  | POST_courses course =>
      match answer (create course) w with
      | Return c => Return (Body c) | Throw e => Throw e end
  | GET_courses filter =>
      match answer (find filter) w with
      | Return l => Return (Listing l) | Throw e => Throw e end
  | GET_courses_id id filter =>
      match answer (findById id filter) w with
      | Return c => Return (Body c) | Throw e => Throw e end
  | PUT_courses_id id course =>
      match answer (replaceById id course) w with
      | Return _ => Return NoContent | Throw e => Throw e end
  | DELETE_courses_id id =>
      match answer (deleteById id) w with
      | Return _ => Return NoContent | Throw e => Throw e end
  end.
Proof. destruct r; apply answer_bind_ret. Qed.

(** The whole of what [deleteById] does, by the row it finds. *)
Lemma deleteById_runs (id : Z) (w : World) :
  deleteById id w =
  let seen := with_journal (CallFindById id None :: journal w) w in
  match rows w !! id with
  | None => (Throw NotFound, seen)
  | Some c =>
      if isDeleted c then (Throw Gone, seen)
      else replaceById id
             (Course.with_deletedAt (value (clock w (reads w))) c)
             (with_reads (S (reads w)) seen)
  end.
Proof.
  cbv zeta. destruct (rows w !! id) as [c|] eqn:Hr.
  - destruct (isDeleted c) eqn:Hd.
    + apply (deleteById_deleted _ _ _ Hr Hd).
    + apply (deleteById_active _ _ _ Hr Hd).
  - apply (deleteById_unknown _ _ Hr).
Qed.

(** X1. [replaceById] takes no [updatedAt] from its caller: whatever the
    body carries there is overwritten with the handler's own reading of the
    clock before anything else happens, so two bodies that differ only in
    [updatedAt] are served alike, answer and world. *)
Theorem replaceById_overrides_updatedAt
    (id : Z) (course : Course.t) (v : js Time) (w : World) :
  replaceById id (Course.with_updatedAt v course) w = replaceById id course w.
Proof. reflexivity. Qed.

(** X2. [replaceById] checks the name, then the status, and only then
    calls the store, with the body stamped with the new [updatedAt]: a body
    with a bad name or status is answered 400 with the handler's complaint,
    whatever the id and whatever the store would have made of it, and for a
    body that passes both checks the answer is the store's.  For such a body
    that has a name and carries no id, or the id of the path, that answer is
    404 when the id is unknown and success when it is known.  Unless the
    call succeeds the table is left as it was. *)
Theorem replaceById_checks_in_order (id : Z) (course : Course.t) (w : World) :
  answer (replaceById id course) w =
    (if name_missing course then Throw (BadRequest NameRequired)
     else if validateStatus (Course.status course)
     then answer
            (Repository.replaceById id
               (Course.with_updatedAt (value (clock w (reads w))) course))
            (with_reads (S (reads w)) w)
     else Throw (BadRequest (InvalidStatus (Course.status course)))) /\
  (name_missing course = false ->
   validateStatus (Course.status course) = true ->
   Course.name course <> undefined ->
   Course.id course = undefined \/ Course.id course = value id ->
   answer (replaceById id course) w =
     match rows w !! id with
     | Some _ => Return tt
     | None => Throw NotFound
     end) /\
  (answer (replaceById id course) w <> Return tt ->
   rows (after (replaceById id course) w) = rows w).
Proof.
  split; [| split].
  - unfold answer, replaceById, bind, new_Date, throw, name_missing.
    cbn [Course.with_updatedAt Course.name Course.status].
    destruct (is_null (Course.name course) || is_string "" (Course.name course));
      [done |].
    by destruct (validateStatus (Course.status course)).
  - intros Hn Hv Hu Hid.
    assert (Repository.refuses_replacement id course = None) as Hs.
    { unfold Repository.refuses_replacement, Repository.changes_id.
      rewrite (lacks_required_false _ Hn Hv Hu).
      destruct Hid as [-> | ->]; [done |].
      by rewrite Z.eqb_refl, andb_false_r. }
    unfold answer. rewrite replaceById_runs. cbv zeta. rewrite Hn, Hv, Hs.
    by destruct (rows w !! id).
  - unfold answer, after. rewrite replaceById_runs. cbv zeta.
    destruct (name_missing course); [done |].
    destruct (validateStatus (Course.status course)); [| done].
    destruct (Repository.refuses_replacement id course); [done |].
    destruct (rows w !! id); done.
Qed.

Lemma replaceById_checks_in_order_witness :
  answer (replaceById 9 bogus) one_course
    = Throw (BadRequest (InvalidStatus (value "bogus"))) /\
  answer (replaceById 9 renamed) one_course = Throw NotFound /\
  rows (after (replaceById 9 renamed) one_course) = rows one_course.
Proof.
  split; [| split].
  - apply (replaceById_checks_in_order 9 bogus one_course).
  - apply (proj1 (proj2 (replaceById_checks_in_order 9 renamed one_course)));
      [reflexivity | reflexivity | discriminate | left; reflexivity].
  - apply (replaceById_checks_in_order 9 renamed one_course). discriminate.
Defined.

(** The whole of what a delete of a known, active row does. *)
Lemma deleteById_runs_active (id : Z) (c : Course.t) (w : World) :
  rows w !! id = Some c ->
  isDeleted c = false ->
  deleteById id w =
  let seen := CallFindById id None :: journal w in
  let sent :=
    Course.with_updatedAt (value (clock w (S (reads w))))
      (Course.with_deletedAt (value (clock w (reads w))) c) in
  let unwritten calls :=
    mkWorld (rows w) (nextId w) calls (headers w) (clock w) (S (S (reads w))) in
  if name_missing c
  then (Throw (BadRequest NameRequired), unwritten seen)
  else if validateStatus (Course.status c)
  then match Repository.refuses_replacement id c with
       | Some e => (Throw e, unwritten (CallReplaceById id sent :: seen))
       | None =>
           (Return tt,
            mkWorld
              (<[id := Course.with_id (value id)
                         (Repository.persist (clock w (S (S (reads w)))) sent)]>
                 (rows w))
              (nextId w) (CallReplaceById id sent :: seen) (headers w)
              (clock w) (S (S (S (reads w)))))
       end
  else (Throw (BadRequest (InvalidStatus (Course.status c))), unwritten seen).
Proof.
  intros Hr Hd. rewrite deleteById_runs. cbv zeta. rewrite Hr, Hd.
  rewrite replaceById_runs. cbv zeta.
  rewrite (proj2 (refuses_replacement_stamped _ _ _)).
  change (name_missing (Course.with_deletedAt _ c)) with (name_missing c).
  change (Course.status (Course.with_deletedAt _ c)) with (Course.status c).
  destruct (name_missing c); [done |].
  destruct (validateStatus (Course.status c)); [| done].
  destruct (Repository.refuses_replacement id c); [done |].
  cbn [rows with_reads with_journal]. by rewrite Hr.
Qed.

(** X3. [deleteById] answers by the row it finds: 404 when there is none,
    410 when the row is already deleted, and for an active row whatever the
    [replaceById] it writes through makes of the stored record: 400 when its
    name is null or empty or its status is none of the three, else the
    store's refusal if it has one (the row has no name, or carries another
    id than the one it is stored under), else success.  An active row that
    passes the checks, has a name and carries its own id is deleted.  Unless
    the delete succeeds the table is left as it was. *)
Theorem deleteById_outcomes (id : Z) (w : World) :
  answer (deleteById id) w =
    match rows w !! id with
    | None => Throw NotFound
    | Some c =>
        if isDeleted c then Throw Gone
        else if name_missing c then Throw (BadRequest NameRequired)
        else if validateStatus (Course.status c)
        then verdict (Repository.refuses_replacement id c)
        else Throw (BadRequest (InvalidStatus (Course.status c)))
    end /\
  (forall c, rows w !! id = Some c ->
     isDeleted c = false ->
     name_missing c = false ->
     validateStatus (Course.status c) = true ->
     Course.name c <> undefined ->
     Course.id c = value id ->
     answer (deleteById id) w = Return tt) /\
  (answer (deleteById id) w <> Return tt ->
   rows (after (deleteById id) w) = rows w).
Proof.
  unfold answer, after. split; [| split].
  - rewrite deleteById_runs. cbv zeta.
    destruct (rows w !! id) as [c|] eqn:Hr; [| done].
    destruct (isDeleted c) eqn:Hd; [done |].
    rewrite <- (deleteById_active _ _ _ Hr Hd).
    rewrite (deleteById_runs_active _ _ _ Hr Hd). cbv zeta.
    destruct (name_missing c); [done |].
    destruct (validateStatus (Course.status c)); [| done].
    by destruct (Repository.refuses_replacement id c).
  - intros c Hr Hd Hn Hv Hu Hid.
    rewrite (deleteById_runs_active _ _ _ Hr Hd). cbv zeta.
    by rewrite Hn, Hv, (refuses_replacement_own _ _ Hn Hv Hu Hid).
  - destruct (rows w !! id) as [c|] eqn:Hr.
    2: { by rewrite (deleteById_unknown _ _ Hr). }
    destruct (isDeleted c) eqn:Hd.
    { by rewrite (deleteById_deleted _ _ _ Hr Hd). }
    rewrite (deleteById_runs_active _ _ _ Hr Hd). cbv zeta.
    destruct (name_missing c); [done |].
    destruct (validateStatus (Course.status c)); [| done].
    by destruct (Repository.refuses_replacement id c).
Qed.

Lemma deleteById_outcomes_witness :
  answer (deleteById 3) stale
    = Throw (BadRequest (InvalidStatus (value "draft"))) /\
  answer (deleteById 1) one_course = Return tt /\
  rows (after (deleteById 3) stale) = rows stale.
Proof.
  split; [| split].
  - apply (deleteById_outcomes 3 stale).
  - apply (proj1 (proj2 (deleteById_outcomes 1 one_course)) intro_stored);
      [reflexivity | reflexivity | reflexivity | reflexivity
      | discriminate | reflexivity].
  - apply (deleteById_outcomes 3 stale). discriminate.
Defined.

(** X5. How the handlers use the repository.  [create] and [replaceById]
    make no repository call when they reject the body themselves (400 for
    its name or status), and exactly one otherwise, whatever the store then
    answers: [create] with the body as received, [replaceById] with the body
    stamped with the new [updatedAt].  [find] and [findById] make exactly one
    call.  [deleteById] always makes a [findById] call, and one
    [replaceById] call after it exactly when the row it fetched is active
    and passes the checks of [replaceById]. *)
Theorem repository_calls (r : Request) (w : World) :
  exists calls,
    journal (after (handle r) w) = calls ++ journal w /\
    match r with
    | POST_courses course =>
        calls = if name_missing course || negb (validateStatus (Course.status course))
                then []
                else [CallCreate course]
    | GET_courses _ => exists sent, calls = [CallFind sent]
    | GET_courses_id id filter => calls = [CallFindById id filter]
    | PUT_courses_id id course =>
        calls = if name_missing course || negb (validateStatus (Course.status course))
                then []
                else [CallReplaceById id
                        (Course.with_updatedAt
                           (value (clock w (reads w))) course)]
    | DELETE_courses_id id =>
        match rows w !! id with
        | Some c =>
            if isDeleted c || name_missing c
               || negb (validateStatus (Course.status c))
            then calls = [CallFindById id None]
            else exists sent,
                calls = [CallReplaceById id sent; CallFindById id None]
        | None => calls = [CallFindById id None]
        end
    end.
Proof.
  rewrite after_handle. unfold after.
  destruct r as [c|f|i f|i c|i].
  - rewrite create_runs.
    destruct (name_missing c); [| destruct (validateStatus (Course.status c));
      [destruct (Repository.refuses_new c) |]];
      cbn; eexists; (split; [| reflexivity]); reflexivity.
  - rewrite find_runs. cbn.
    eexists; (split; [| eexists; reflexivity]); reflexivity.
  - rewrite findById_runs. cbn.
    eexists; (split; [| reflexivity]); reflexivity.
  - rewrite replaceById_runs. cbv zeta.
    destruct (name_missing c);
      [| destruct (validateStatus (Course.status c));
         [destruct (Repository.refuses_replacement i c);
          [| destruct (rows w !! i)] |]];
      cbn; eexists; (split; [| reflexivity]); reflexivity.
  - destruct (rows w !! i) as [c|] eqn:Hr.
    + destruct (isDeleted c) eqn:Hd.
      * rewrite (deleteById_deleted _ _ _ Hr Hd). cbn.
        by exists [CallFindById i None].
      * rewrite (deleteById_runs_active _ _ _ Hr Hd). cbv zeta.
        destruct (name_missing c);
          [| destruct (validateStatus (Course.status c));
             [destruct (Repository.refuses_replacement i c) |]]; cbn.
        -- by exists [CallFindById i None].
        -- eexists [_; _]. split; [done |]. eexists. reflexivity.
        -- eexists [_; _]. split; [done |]. eexists. reflexivity.
        -- by exists [CallFindById i None].
    + rewrite (deleteById_unknown _ _ Hr). cbn.
      by exists [CallFindById i None].
Qed.

(** X6. The [Location] header.  A successful [POST /courses] sets exactly
    one header, [Location], to [/courses/] followed by the id of the record
    it returns; a rejected POST and every other request, successful or not,
    leave the response headers as they were. *)
Theorem location_header (r : Request) (w : World) :
  headers (after (handle r) w) =
  match r, answer (handle r) w with
  | POST_courses _, Return (Body c) =>
      ("Location", "/courses/" +:+ show_id (Course.id c)) :: headers w
  | _, _ => headers w
  end.
Proof.
  destruct r as [c|f|i f|i c|i]; rewrite after_handle, ?answer_handle;
    unfold answer, after.
  - rewrite create_runs.
    destruct (name_missing c); [| destruct (validateStatus (Course.status c));
      [destruct (Repository.refuses_new c) |]]; done.
  - by rewrite find_runs.
  - rewrite findById_runs. cbn. by destruct (rows w !! i).
  - rewrite replaceById_runs. cbv zeta.
    destruct (name_missing c);
      [| destruct (validateStatus (Course.status c));
         [destruct (Repository.refuses_replacement i c);
          [| destruct (rows w !! i)] |]]; done.
  - destruct (rows w !! i) as [c|] eqn:Hr.
    + destruct (isDeleted c) eqn:Hd.
      * by rewrite (deleteById_deleted _ _ _ Hr Hd).
      * rewrite (deleteById_runs_active _ _ _ Hr Hd). cbv zeta.
        destruct (name_missing c);
          [| destruct (validateStatus (Course.status c));
             [destruct (Repository.refuses_replacement i c) |]]; done.
    + by rewrite (deleteById_unknown _ _ Hr).
Qed.

(** X7. The two GET handlers are read-only: whatever they answer, [find] and
    [findById] leave the table, the id counter and the response headers as
    they were, and they do not even read the clock. *)
Theorem get_is_read_only (id : Z) (filter : option Filter) (w : World) :
  (rows (after (find filter) w) = rows w /\
   nextId (after (find filter) w) = nextId w /\
   headers (after (find filter) w) = headers w /\
   reads (after (find filter) w) = reads w) /\
  (rows (after (findById id filter) w) = rows w /\
   nextId (after (findById id filter) w) = nextId w /\
   headers (after (findById id filter) w) = headers w /\
   reads (after (findById id filter) w) = reads w).
Proof. unfold after. by rewrite find_runs, findById_runs. Qed.

(** * What a caller's filter can and cannot do *)

Lemma page_by_keys {A} (f g : Filter) (l : list A) :
  limit f = limit g -> skip f = skip g -> offset f = offset g ->
  Repository.page f l = Repository.page g l.
Proof.
  intros Hl Hs Ho. unfold Repository.page, Repository.start.
  by rewrite Hl, Hs, Ho.
Qed.

(** X8. [find] takes nothing from the caller's filter but the page: two
    filters whose [limit], [skip] and [offset] reach the store alike (each
    taken from the where clause if it has the key, else from the filter
    itself) get the same listing, whatever else they carry.  A caller cannot
    widen the listing to deleted records, reorder it, or ask for more
    fields. *)
Theorem find_takes_only_the_page (f g : option Filter) (w : World) :
  same_page f g ->
  answer (find f) w = answer (find g) w.
Proof.
  intros (Hl & Hs & Ho). unfold answer. rewrite !find_runs. cbv zeta.
  cbn [fst]. f_equal. f_equal. by apply page_by_keys.
Qed.

Lemma find_takes_only_the_page_witness :
  answer (find (Some nosy)) two_courses
    = answer (find (Some smuggled)) two_courses.
Proof.
  apply (find_takes_only_the_page (Some nosy) (Some smuggled) two_courses).
  split; [| split]; reflexivity.
Defined.

(** * What the handlers keep true of the table *)

Lemma name_missing_false (c : Course.t) :
  name_missing c = false <->
  Course.name c <> null /\ Course.name c <> value "".
Proof.
  unfold name_missing. rewrite orb_false_iff.
  destruct (Course.name c) as [| |s]; cbn.
  - split; [done | by intros _].
  - split; [by intros [? _] | by intros [? _]].
  - split.
    + intros [_ Hs]. split; [done |]. intros [= ->]. done.
    + intros [_ Hs]. split; [done |].
      destruct (String.eqb s "") eqn:E; [| done].
      apply String.eqb_eq in E. by subst.
Qed.

Lemma or_null_defined {A} (v : js A) : Repository.or_null v <> undefined.
Proof. by destruct v. Qed.

Lemma lacks_required_name (c : Course.t) :
  Repository.lacks_required c = false -> Course.name c <> undefined.
Proof.
  unfold Repository.lacks_required. intros H.
  apply orb_false_iff in H as [H _]. by destruct (Course.name c).
Qed.

Lemma handle_well_kept (r : Request) (w : World) :
  well_kept w -> well_kept (after (handle r) w).
Proof.
  intros Hw. rewrite after_handle. unfold after, well_kept.
  destruct r as [c|f|i f|i c|i].
  - rewrite create_runs. destruct (name_missing c) eqn:Hn; [done |].
    destruct (validateStatus (Course.status c)) eqn:Hv; [| done].
    destruct (Repository.refuses_new c) eqn:Hs; [done |].
    cbn [snd rows]. intros j d. rewrite lookup_insert. case_decide as Hj.
    + intros [= <-]. subst j.
      split; [exact Hn |]. split; [exact Hv |].
      split; [exact (lacks_required_name _ (refuses_new_none _ Hs)) |].
      split; [done |]. apply or_null_defined.
    + apply Hw.
  - by rewrite find_runs.
  - by rewrite findById_runs.
  - rewrite replaceById_runs. cbv zeta.
    destruct (name_missing c) eqn:Hn; [done |].
    destruct (validateStatus (Course.status c)) eqn:Hv; [| done].
    destruct (Repository.refuses_replacement i c) eqn:Hs; [done |].
    destruct (rows w !! i) as [old|] eqn:Hr; [| done].
    cbn [snd rows]. intros j d. rewrite lookup_insert. case_decide as Hj.
    + intros [= <-]. subst j.
      split; [exact Hn |]. split; [exact Hv |].
      split; [exact (lacks_required_name _ (refuses_replacement_none _ _ Hs)) |].
      split; [done |]. apply or_null_defined.
    + apply Hw.
  - destruct (rows w !! i) as [c|] eqn:Hr.
    2: { by rewrite (deleteById_unknown _ _ Hr). }
    destruct (isDeleted c) eqn:Hd.
    { by rewrite (deleteById_deleted _ _ _ Hr Hd). }
    rewrite (deleteById_runs_active _ _ _ Hr Hd). cbv zeta.
    destruct (name_missing c) eqn:Hn; [done |].
    destruct (validateStatus (Course.status c)) eqn:Hv; [| done].
    destruct (Repository.refuses_replacement i c) eqn:Hs; [done |].
    cbn [snd rows]. intros j d. rewrite lookup_insert. case_decide as Hj.
    + intros [= <-]. subst j.
      split; [exact Hn |]. split; [exact Hv |].
      split; [exact (lacks_required_name _ (refuses_replacement_none _ _ Hs)) |].
      done.
    + apply Hw.
Qed.

Lemma reachable_well_kept (w : World) : reachable w -> well_kept w.
Proof.
  induction 1 as [clock | w r _ IH].
  - intros i c Hc. unfold initial in Hc. cbn [rows] in Hc.
    by rewrite lookup_empty in Hc.
  - by apply handle_well_kept.
Qed.

Lemma reachable_one_course : reachable one_course.
Proof.
  unfold one_course. rewrite <- (after_handle (POST_courses intro_to_go)).
  apply reachable_step, reachable_initial.
Qed.

(** X9. Every record the handlers have stored passes their validation: in
    every world reachable from a fresh deployment, each row of the table has
    a status that is one of the three values and a name that is neither null
    nor the empty string. *)
Theorem stored_records_pass_validation (w : World) (i : Z) (c : Course.t) :
  reachable w ->
  rows w !! i = Some c ->
  passes_validation c.
Proof.
  intros Hreach Hc.
  destruct (reachable_well_kept w Hreach i c Hc) as (Hn & Hv & _).
  apply name_missing_false in Hn as [Hnull Hempty].
  apply validateStatus_true in Hv. done.
Qed.

Lemma stored_records_pass_validation_witness :
  passes_validation intro_stored.
Proof.
  apply (stored_records_pass_validation one_course 1 intro_stored).
  - unfold one_course. rewrite <- (after_handle (POST_courses intro_to_go)).
    apply reachable_step, reachable_initial.
  - reflexivity.
Defined.

(** X10. In every world reachable from a fresh deployment [deleteById] never
    answers 400: since every stored record passes validation, the write it
    goes through cannot be rejected, and the answer depends on the row alone:
    404 when there is none, 410 when it is deleted, success when it is
    active. *)
Theorem deleteById_on_reachable (id : Z) (w : World) :
  reachable w ->
  answer (deleteById id) w =
  match rows w !! id with
  | None => Throw NotFound
  | Some c => if isDeleted c then Throw Gone else Return tt
  end.
Proof.
  intros Hreach. unfold answer. destruct (rows w !! id) as [c|] eqn:Hr.
  2: { by rewrite (deleteById_unknown _ _ Hr). }
  destruct (isDeleted c) eqn:Hd.
  { by rewrite (deleteById_deleted _ _ _ Hr Hd). }
  rewrite (deleteById_runs_active _ _ _ Hr Hd). cbv zeta.
  destruct (reachable_well_kept w Hreach id c Hr) as (Hn & Hv & Hu & Hid & _).
  by rewrite Hn, Hv, (refuses_replacement_own _ _ Hn Hv Hu Hid).
Qed.

Lemma deleteById_on_reachable_witness :
  answer (deleteById 1) one_deleted =
  match rows one_deleted !! 1 with
  | None => Throw NotFound
  | Some c => if isDeleted c then Throw Gone else Return tt
  end.
Proof.
  apply (deleteById_on_reachable 1 one_deleted).
  unfold one_deleted. rewrite <- (after_handle (DELETE_courses_id 1)).
  apply reachable_step.
  unfold one_course. rewrite <- (after_handle (POST_courses intro_to_go)).
  apply reachable_step, reachable_initial.
Defined.

(** * Writing, then reading *)

Lemma find_lists_only_active
    (filter : option Filter) (w : World) (listing : list Course.t) (x : Course.t) :
  answer (find filter) w = Return listing ->
  x ∈ listing ->
  exists i c, rows w !! i = Some c /\ Course.deletedAt c = null /\ x = summary c.
Proof.
  unfold answer. rewrite find_runs. cbv zeta. cbn [fst]. intros [= <-] Hx.
  apply list_elem_of_fmap in Hx as (c & -> & Hc).
  apply (sublist_subseteq _ _ (page_sublist _ _)) in Hc.
  rewrite merge_sort_Permutation in Hc.
  apply list_elem_of_In, List.filter_In in Hc as [Hin Hnull].
  apply list_elem_of_In, elem_of_table in Hin as [i Hi].
  rewrite matches_active_only in Hnull.
  exists i, c. split; [done |]. split; [| done]. by apply is_null_true.
Qed.

Lemma find_lists_every_active
    (filter : option Filter) (w : World) (i : Z) (c : Course.t) :
  unpaged filter ->
  rows w !! i = Some c ->
  Course.deletedAt c = null ->
  exists listing,
    answer (find filter) w = Return listing /\ summary c ∈ listing.
Proof.
  intros (Hl & Hs & Ho) Hc Hnull. unfold answer. rewrite find_runs.
  cbv zeta. cbn [fst].
  eexists. split; [reflexivity |]. rewrite page_whole by done.
  apply list_elem_of_fmap_2. rewrite merge_sort_Permutation.
  apply list_elem_of_In, List.filter_In. split.
  - apply list_elem_of_In, elem_of_table. eauto.
  - rewrite matches_active_only. by apply is_null_true.
Qed.

(** X11. Create, then read.  In every world reachable from a fresh
    deployment, a successful [create] returns a record under an id the table
    did not hold before and with the [deletedAt] of the body, absent if the
    body had none; the row it has written is that record with [deletedAt]
    null where the record has none; and a [findById] of the id right after
    returns the row, unless the body carried a [deletedAt], in which case
    the new record is already Gone. *)
Theorem create_then_findById (course created : Course.t) (w : World) :
  reachable w ->
  answer (create course) w = Return created ->
  exists id,
    Course.id created = value id /\
    Course.deletedAt created = Course.deletedAt course /\
    rows w !! id = None /\
    rows (after (create course) w) !! id
      = Some (Course.with_deletedAt
                (Repository.or_null (Course.deletedAt created)) created) /\
    answer (findById id None) (after (create course) w)
      = match Course.deletedAt course with
        | value _ => Throw Gone
        | _ => Return (Course.with_deletedAt null created)
        end.
Proof.
  intros Hreach. apply reachable_fresh_ids in Hreach.
  unfold answer, after. rewrite create_runs.
  destruct (name_missing course); [done |].
  destruct (validateStatus (Course.status course)); [| done].
  destruct (Repository.refuses_new course); [done |].
  cbn [fst snd]. intros [= <-]. exists (nextId w).
  split; [done |]. split; [done |]. split.
  { destruct (rows w !! nextId w) as [c|] eqn:Hc; [| done].
    assert (nextId w < nextId w) by (apply Hreach; by rewrite Hc). lia. }
  split; [apply lookup_insert_eq |].
  rewrite findById_runs. cbn [fst rows]. rewrite lookup_insert_eq.
  unfold isDeleted, Repository.persist, Repository.instantiate,
    Course.with_id, Course.with_deletedAt. cbn.
  by destruct (Course.deletedAt course).
Qed.

Lemma create_then_findById_witness :
  exists id,
    Course.id (Course.mk (value 2) (value "Renamed") (value "available")
                         (value 1001) (value 1001) undefined) = value id /\
    Course.deletedAt
      (Course.mk (value 2) (value "Renamed") (value "available")
                 (value 1001) (value 1001) undefined)
      = Course.deletedAt renamed /\
    rows one_course !! id = None /\
    rows (after (create renamed) one_course) !! id
      = Some (Course.mk (value 2) (value "Renamed") (value "available")
                        (value 1001) (value 1001) null) /\
    answer (findById id None) (after (create renamed) one_course)
      = Return (Course.mk (value 2) (value "Renamed") (value "available")
                          (value 1001) (value 1001) null).
Proof.
  apply (create_then_findById renamed
           (Course.mk (value 2) (value "Renamed") (value "available")
                      (value 1001) (value 1001) undefined) one_course).
  - apply reachable_one_course.
  - reflexivity.
Defined.

(** X12. Create, then list.  After a successful [create] whose body has no
    [deletedAt] (absent or null), a [find] whose filter asks for no
    pagination, neither at its top level nor in its where clause, lists the
    new record, by its [id] and [name]. *)
Theorem created_is_listed
    (course created : Course.t) (filter : option Filter) (w : World) :
  answer (create course) w = Return created ->
  Course.deletedAt course = undefined \/ Course.deletedAt course = null ->
  unpaged filter ->
  exists listing,
    answer (find filter) (after (create course) w) = Return listing /\
    summary created ∈ listing.
Proof.
  intros Hc Hd Hu. unfold answer, after in Hc |- *. rewrite create_runs in *.
  destruct (name_missing course); [done |].
  destruct (validateStatus (Course.status course)); [| done].
  destruct (Repository.refuses_new course); [done |].
  cbn [fst snd] in *. injection Hc as <-.
  set (w1 := mkWorld _ _ _ _ _ _).
  destruct (find_lists_every_active filter w1 (nextId w)
              (Course.with_id (value (nextId w))
                 (Repository.persist (clock w (reads w)) course)) Hu)
    as (listing & Hl & Hin).
  - cbn [rows w1]. apply lookup_insert_eq.
  - cbn. by destruct Hd as [-> | ->].
  - exists listing. split; [exact Hl | exact Hin].
Qed.

Lemma created_is_listed_witness :
  exists listing,
    answer (find None) (after (create renamed) one_course) = Return listing /\
    summary (Course.mk (value 2) (value "Renamed") (value "available")
                       (value 1001) (value 1001) undefined) ∈ listing.
Proof.
  apply (created_is_listed renamed
           (Course.mk (value 2) (value "Renamed") (value "available")
                      (value 1001) (value 1001) undefined) None one_course).
  - reflexivity.
  - left. reflexivity.
  - split; [| split]; reflexivity.
Defined.

(** X13. Update, then read.  After a successful [replaceById] the table
    holds, under the id of the path, a record with the name, status and
    [deletedAt] of the body (null when the body has none), whatever id the
    body carried, and with [updatedAt] set to the time of the update; a
    [findById] right after returns it, or Gone when the body carried a
    [deletedAt]. *)
Theorem replaceById_then_findById (id : Z) (course : Course.t) (w : World) :
  answer (replaceById id course) w = Return tt ->
  exists c,
    rows (after (replaceById id course) w) !! id = Some c /\
    Course.id c = value id /\
    Course.name c = Course.name course /\
    Course.status c = Course.status course /\
    Course.updatedAt c = value (clock w (reads w)) /\
    Course.deletedAt c = Repository.or_null (Course.deletedAt course) /\
    answer (findById id None) (after (replaceById id course) w)
      = if isDeleted c then Throw Gone else Return c.
Proof.
  unfold answer, after. rewrite replaceById_runs. cbv zeta.
  destruct (name_missing course); [done |].
  destruct (validateStatus (Course.status course)); [| done].
  destruct (Repository.refuses_replacement id course); [done |].
  destruct (rows w !! id); [| done].
  intros _. cbn [fst snd]. eexists. split; [apply lookup_insert_eq |].
  do 5 (split; [reflexivity |]).
  rewrite findById_runs. cbn [fst rows]. by rewrite lookup_insert_eq.
Qed.

Lemma replaceById_then_findById_witness :
  exists c,
    rows (after (replaceById 1 renamed) one_deleted) !! 1 = Some c /\
    Course.id c = value 1 /\
    Course.name c = Course.name renamed /\
    Course.status c = Course.status renamed /\
    Course.updatedAt c = value (clock one_deleted (reads one_deleted)) /\
    Course.deletedAt c = Repository.or_null (Course.deletedAt renamed) /\
    answer (findById 1 None) (after (replaceById 1 renamed) one_deleted)
      = if isDeleted c then Throw Gone else Return c.
Proof.
  apply (replaceById_then_findById 1 renamed one_deleted). reflexivity.
Defined.

(** X14. Delete, then read.  In every world reachable from a fresh
    deployment, after a successful [deleteById] a [findById] of the id
    answers Gone whatever filter is sent, and no [find], whatever its filter,
    lists a record with that id. *)
Theorem deleted_is_gone_and_unlisted
    (id : Z) (filter : option Filter) (w : World) :
  reachable w ->
  answer (deleteById id) w = Return tt ->
  answer (findById id filter) (after (deleteById id) w) = Throw Gone /\
  forall listing x,
    answer (find filter) (after (deleteById id) w) = Return listing ->
    x ∈ listing ->
    Course.id x <> value id.
Proof.
  intros Hreach Hok.
  assert (well_kept (after (deleteById id) w)) as Hkept.
  { rewrite <- (after_handle (DELETE_courses_id id)).
    by apply handle_well_kept, reachable_well_kept. }
  assert (exists stored,
            rows (after (deleteById id) w) !! id = Some stored /\
            isDeleted stored = true) as (stored & Hstored & Hgone).
  { unfold answer, after in *. destruct (rows w !! id) as [c|] eqn:Hr.
    2: { by rewrite (deleteById_unknown _ _ Hr) in Hok. }
    destruct (isDeleted c) eqn:Hd.
    { by rewrite (deleteById_deleted _ _ _ Hr Hd) in Hok. }
    rewrite (deleteById_runs_active _ _ _ Hr Hd) in *. cbv zeta in *.
    destruct (name_missing c); [done |].
    destruct (validateStatus (Course.status c)); [| done].
    destruct (Repository.refuses_replacement id c); [done |].
    cbn [snd rows]. eexists. split; [apply lookup_insert_eq | done]. }
  split.
  - unfold answer. rewrite findById_runs. cbn [fst]. rewrite Hstored.
    by rewrite (project_keeps_deleted _ _ Hgone).
  - intros listing x Hl Hx.
    destruct (find_lists_only_active _ _ _ _ Hl Hx) as (i & c & Hc & Hnull & ->).
    destruct (Hkept i c Hc) as (_ & _ & _ & Hid & _).
    cbn. rewrite Hid. intros [= ->].
    rewrite Hstored in Hc. injection Hc as ->.
    apply isDeleted_true in Hgone. done.
Qed.

Lemma deleted_is_gone_and_unlisted_witness :
  answer (findById 1 None) (after (deleteById 1) one_course) = Throw Gone /\
  forall listing x,
    answer (find None) (after (deleteById 1) one_course) = Return listing ->
    x ∈ listing ->
    Course.id x <> value 1.
Proof.
  apply (deleted_is_gone_and_unlisted 1 None one_course).
  - apply reachable_one_course.
  - reflexivity.
Defined.

(** X15. A projection can make an active record look deleted.  [findById]
    hands the caller's filter to the store and tests [isDeleted] on what
    comes back, so when the filter's [fields] leave [deletedAt] out, the
    property is absent from the fetched record and the handler answers Gone
    for every stored id, active or not. *)
Theorem findById_without_deletedAt_is_gone
    (id : Z) (filter : option Filter) (fs : Fields) (c : Course.t) (w : World) :
  rows w !! id = Some c ->
  filter ≫= fields = Some fs ->
  Repository.selected fs PdeletedAt = false ->
  answer (findById id filter) w = Throw Gone.
Proof.
  intros Hr Hf Hs. unfold answer. rewrite findById_runs, Hr, Hf. cbn [fst].
  unfold isDeleted, Repository.project, Repository.keep. cbn. by rewrite Hs.
Qed.

Lemma findById_without_deletedAt_is_gone_witness :
  answer (findById 1 (Some nosy)) one_course = Throw Gone.
Proof.
  apply (findById_without_deletedAt_is_gone
           1 (Some nosy) [(Pstatus, true)] intro_stored one_course);
    reflexivity.
Defined.
